(** * BlocklistApp: the resolution client and the search controller

    A shallow embedding of [src/components/BlocklistApp.tsx].

    - JavaScript run-time values, as [JSON.parse] produces them, and the
      few operations the component applies to them (property read,
      truthiness, [||], [=== 0], [> 0]).
    - The three functions of the [API] object, each a [try]/[catch]
      around one [fetch].
    - The component's async handlers as resumable procedures that
      suspend at every [await], the controller as a transition system
      whose events are the ones the browser delivers, and the render
      function as a function from the state to the elements shown. *)

From Stdlib Require Import String Ascii ZArith List Bool Lia.
From Stdlib Require Import DecimalString DecimalZ DecimalFacts.
From stdpp Require Import base tactics option list.
Import ListNotations.
Local Set Warnings "-register-all".
Local Open Scope string_scope.
Local Open Scope Z_scope.

(** ** JavaScript values *)

(** What [response.json()] can yield, plus [undefined].  Numbers are kept
    as integers: the component only tests them against zero.  A string is
    a sequence of code units, one [ascii] each. *)
Inductive value : Type :=
  | VUndef
  | VNull
  | VBool (b : bool)
  | VNum (n : Z)
  | VStr (s : string)
  | VArr (items : list value)
  | VObj (fields : list (string * value)).

Inductive error : Type :=
  | TypeError
  | SyntaxError
  | URIError.

(** The result of evaluating an expression or awaiting a promise: a value,
    or a thrown error (a rejected promise). *)
Inductive completion (A : Type) : Type :=
  | Normal (a : A)
  | Throw (e : error).
Arguments Normal {A} a.
Arguments Throw {A} e.

Definition bind {A B} (c : completion A) (k : A -> completion B) : completion B :=
  match c with
  | Normal a => k a
  | Throw e => Throw e
  end.

Notation "'let*' x ':=' c 'in' k" := (bind c (fun x => k))
  (at level 10, x name, c at level 100, k at level 200).

(** [try { body } catch (error) { handler }] *)
Definition try_catch {A} (body : completion A) (handler : error -> completion A)
  : completion A :=
  match body with
  | Normal a => Normal a
  | Throw e => handler e
  end.

(** The built-in conversions whose algorithms are not part of the
    component.  Each is consulted only outside the case the language
    fixes trivially (see [to_string], [to_number]). *)
Class Builtins : Type := {
  (** [ToString] on a value that is not a string. *)
  ToString_other : value -> string;
  (** [ToNumber] on a string, array or object; [None] is [NaN]. *)
  ToNumber_other : value -> option Z;
  (** [encodeURIComponent] on a string; [None] is a thrown [URIError]. *)
  encodeURI_string : string -> option string
}.

(** *** The conversions, carried out

    [ToString] and [encodeURIComponent] as the language defines them on
    the values of this model (integers print in decimal, which is what
    the language does below 10^21; a code unit is below 256, so none is a
    surrogate and [encodeURIComponent] cannot throw).  [ToNumber] is
    carried out for the empty string and for decimal integers only, and
    takes every other spelling of a number as [NaN]. *)

Fixpoint js_ToString (v : value) : string :=
  match v with
  | VUndef => "undefined"
  | VNull => "null"
  | VBool true => "true"
  | VBool false => "false"
  | VNum n => NilZero.string_of_int (Z.to_int n)
  | VStr s => s
  | VArr items =>
      String.concat ","
        (map (fun item =>
                match item with
                | VUndef | VNull => ""
                | _ => js_ToString item
                end) items)
  | VObj _ => "[object Object]"
  end.

Definition js_StringToNumber (s : string) : option Z :=
  match s with
  | "" => Some 0
  | _ => option_map Z.of_int (NilZero.int_of_string s)
  end.

(** The characters [encodeURIComponent] leaves as they are. *)
Definition unreserved (c : ascii) : bool :=
  let n := nat_of_ascii c in
  ((65 <=? n) && (n <=? 90))%nat
  || ((97 <=? n) && (n <=? 122))%nat
  || ((48 <=? n) && (n <=? 57))%nat
  || existsb (Ascii.eqb c) (list_ascii_of_string "-_.!~*'()").

Definition hex_digit (n : nat) : ascii :=
  nth n (list_ascii_of_string "0123456789ABCDEF") "0"%char.

Definition percent (byte : nat) : string :=
  String "%" (String (hex_digit (byte / 16))
                (String (hex_digit (byte mod 16)) "")).

(** Each code unit that is not left as it is becomes the escaped bytes of
    its UTF-8 encoding: one byte below 128, two from 128 to 255. *)
Fixpoint percent_encode (s : string) : string :=
  match s with
  | EmptyString => ""
  | String c rest =>
      let n := nat_of_ascii c in
      (if unreserved c then String c ""
       else if (n <? 128)%nat then percent n
       else percent (192 + n / 64) ++ percent (128 + n mod 64))
      ++ percent_encode rest
  end.

(** The conversions as carried out above. *)
Definition plain_builtins : Builtins := {|
  ToString_other := js_ToString;
  ToNumber_other := fun v =>
    match v with
    | VObj _ => None
    | _ => js_StringToNumber (js_ToString v)
    end;
  encodeURI_string := fun s => Some (percent_encode s)
|}.

Section Values.
Context {js : Builtins}.

Definition truthy (v : value) : bool :=
  match v with
  | VUndef | VNull => false
  | VBool b => b
  | VNum n => negb (n =? 0)
  | VStr s => negb (String.eqb s "")
  | VArr _ | VObj _ => true
  end.

(** [a || b] *)
Definition js_or (a b : value) : value := if truthy a then a else b.

(** An object's own property; of two members with one name
    [JSON.parse] keeps the later. *)
Fixpoint own_property (key : string) (fields : list (string * value))
  : option value :=
  match fields with
  | [] => None
  | (k, v) :: rest =>
      match own_property key rest with
      | Some w => Some w
      | None => if String.eqb k key then Some v else None
      end
  end.

(** [v.key], for the property names the component reads ([did], [data],
    [blocklist], [handle], [length], [avatar], [displayName],
    [description]): none of them is inherited from a prototype, and
    [length] is an own property of arrays and strings. *)
Definition get (v : value) (key : string) : completion value :=
  match v with
  | VUndef | VNull => Throw TypeError
  | VObj fields => Normal (default VUndef (own_property key fields))
  | VArr items =>
      Normal (if String.eqb key "length"
              then VNum (Z.of_nat (List.length items)) else VUndef)
  | VStr s =>
      Normal (if String.eqb key "length"
              then VNum (Z.of_nat (String.length s)) else VUndef)
  | VBool _ | VNum _ => Normal VUndef
  end.

(** A value in a template literal, [`${v}`].  The conversion is taken to
    return a string.  For an object or array whose [toString] and
    [valueOf] members are not callable the language throws a
    [TypeError] instead; that case is outside this function. *)
Definition to_string (v : value) : string :=
  match v with
  | VStr s => s
  | _ => ToString_other v
  end.

Definition to_number (v : value) : option Z :=
  match v with
  | VNum n => Some n
  | VUndef => None
  | VNull => Some 0
  | VBool b => Some (if b then 1 else 0)
  | _ => ToNumber_other v
  end.

(** [v > 0], for a [v] whose conversion to a number returns.  As for
    [to_string], an object or array whose [toString] and [valueOf]
    members are not callable makes the comparison throw a [TypeError];
    that case is outside this function. *)
Definition gt_zero (v : value) : bool :=
  match to_number v with
  | Some n => 0 <? n
  | None => false
  end.

(** [v === 0] *)
Definition strict_eq_zero (v : value) : bool :=
  match v with
  | VNum n => n =? 0
  | _ => false
  end.

(** [encodeURIComponent(v)] *)
Definition encodeURIComponent (v : value) : completion string :=
  match encodeURI_string (to_string v) with
  | Some s => Normal s
  | None => Throw URIError
  end.
End Values.

(** ** The network *)

(** What one [fetch] comes to.  [fetch] rejects only when no response
    arrives; a response of any status fulfils it.  [body] is what
    [response.json()] makes of the response: [None] when it rejects (the
    body is not JSON). *)
Record response : Type := {
  status : Z;
  body : option value
}.

Inductive fetch_outcome : Type :=
  | NetworkError
  | Responds (r : response).

Record request : Type := {
  url : string;
  headers : list (string * string)
}.

(** The behaviour of the remote services during one call. *)
Definition network : Type := request -> fetch_outcome.

(** [response.ok]; the component never reads it. *)
Definition ok (r : response) : bool := (200 <=? status r) && (status r <=? 299).

Definition fetch (net : network) (url : string) (headers : list (string * string))
  : completion response :=
  match net {| url := url; headers := headers |} with
  | NetworkError => Throw TypeError
  | Responds r => Normal r
  end.

(** [response.json()] *)
Definition json (r : response) : completion value :=
  match body r with
  | Some v => Normal v
  | None => Throw SyntaxError
  end.

(** ** The resolution client *)

Module API.
Section WithBuiltins.
Context {js : Builtins}.

Definition static_headers : list (string * string) :=
  [("accept", "*/*");
   ("origin", "https://clearsky.app");
   ("referer", "https://clearsky.app/")].

Definition resolveHandle_url (handle : string) : string :=
  "https://bsky.social/xrpc/com.atproto.identity.resolveHandle?handle="
    ++ handle ++ ".bsky.social".

Definition getProfile_url (actor : string) : string :=
  "https://public.api.bsky.app/xrpc/app.bsky.actor.getProfile?actor=" ++ actor.

Definition blocklist_url (handle : string) : string :=
  "https://api.clearsky.services/api/v1/anon/single-blocklist/" ++ handle.

Definition getDidFromHandle (net : network) (handle : string) : completion value :=
  try_catch
    (let* response := fetch net (resolveHandle_url handle) static_headers in
     let* data := json response in
     let* did := get data "did" in
     Normal (js_or did VNull))
    (fun _ => Normal VNull).

Definition getProfileByDid (net : network) (did : value) : completion value :=
  try_catch
    (let* actor := encodeURIComponent did in
     let* response := fetch net (getProfile_url actor) static_headers in
     let* data := json response in
     Normal data)
    (fun _ => Normal VNull).

Definition getBlocklist (net : network) (handle : value) : completion value :=
  try_catch
    (let* response :=
       fetch net (blocklist_url (to_string handle)) static_headers in
     let* data := json response in
     let* inner := get data "data" in
     let* blocklist := get inner "blocklist" in
     Normal (js_or blocklist (VArr [])))
    (fun _ => Normal (VArr [])).
End WithBuiltins.
End API.

(** ** The search controller *)

(** The React state of [BlocklistApp]. *)
Record state : Type := {
  query : string;
  searchProfile : value;
  selectedProfile : value;
  blocklist : value;
  isSearching : bool
}.

Definition setQuery (q : string) (s : state) : state :=
  {| query := q; searchProfile := searchProfile s;
     selectedProfile := selectedProfile s; blocklist := blocklist s;
     isSearching := isSearching s |}.

Definition setSearchProfile (v : value) (s : state) : state :=
  {| query := query s; searchProfile := v;
     selectedProfile := selectedProfile s; blocklist := blocklist s;
     isSearching := isSearching s |}.

Definition setSelectedProfile (v : value) (s : state) : state :=
  {| query := query s; searchProfile := searchProfile s;
     selectedProfile := v; blocklist := blocklist s;
     isSearching := isSearching s |}.

Definition setBlocklist (v : value) (s : state) : state :=
  {| query := query s; searchProfile := searchProfile s;
     selectedProfile := selectedProfile s; blocklist := v;
     isSearching := isSearching s |}.

Definition setIsSearching (b : bool) (s : state) : state :=
  {| query := query s; searchProfile := searchProfile s;
     selectedProfile := selectedProfile s; blocklist := blocklist s;
     isSearching := b |}.

Inductive setter : Type :=
  | SetQuery (q : string)
  | SetSearchProfile (v : value)
  | SetSelectedProfile (v : value)
  | SetBlocklist (v : value)
  | SetIsSearching (b : bool).

Definition apply_setter (u : setter) : state -> state :=
  match u with
  | SetQuery q => setQuery q
  | SetSearchProfile v => setSearchProfile v
  | SetSelectedProfile v => setSelectedProfile v
  | SetBlocklist v => setBlocklist v
  | SetIsSearching b => setIsSearching b
  end.

Inductive api_call : Type :=
  | GetDidFromHandle (handle : string)
  | GetProfileByDid (did : value)
  | GetBlocklist (handle : value).

(** The body of an async handler: state setter calls, and [await]s of the
    resolution client at which the handler is suspended until the call
    settles. *)
Inductive proc : Type :=
  | Return
  | Reject (e : error)
  | Set_ (u : setter) (k : proc)
  | Await (c : api_call) (k : value -> proc).

Notation "u ';;;' k" := (Set_ u k) (at level 100, k at level 200).
Notation "'await*' x ':=' c ';;;' k" := (Await c (fun x => k))
  (at level 10, x name, c at level 99, k at level 200).

(** Where the target of a pointer event lies, relative to the element
    [searchRef] refers to. *)
Inductive node : Type :=
  | WithinSearch
  | Elsewhere.

Section Controller.
Context {js : Builtins}.

Definition perform (net : network) (c : api_call) : completion value :=
  match c with
  | GetDidFromHandle handle => API.getDidFromHandle net handle
  | GetProfileByDid did => API.getProfileByDid net did
  | GetBlocklist handle => API.getBlocklist net handle
  end.

Definition searchForProfile (query : string) : proc :=
  if Z.of_nat (String.length query) <? 3 then
    SetSearchProfile VNull ;;;
    Return
  else
    SetIsSearching true ;;;
    await* did := GetDidFromHandle query ;;;
    if truthy did then
      await* profileData := GetProfileByDid did ;;;
      SetSearchProfile profileData ;;;
      SetIsSearching false ;;;
      Return
    else
      SetSearchProfile VNull ;;;
      SetIsSearching false ;;;
      Return.

Definition handleSelect (profile : value) : proc :=
  SetSelectedProfile profile ;;;
  match get profile "handle" with
  | Throw e => Reject e
  | Normal handle =>
      await* blocklistData := GetBlocklist handle ;;;
      SetBlocklist blocklistData ;;;
      SetQuery "" ;;;
      SetSearchProfile VNull ;;;
      Return
  end.

Definition handleClickOutside (searchRef_current : option (node -> bool))
    (target : node) : proc :=
  match searchRef_current with
  | Some contains =>
      if negb (contains target) then SetSearchProfile VNull ;;; Return
      else Return
  | None => Return
  end.

(** [onChange={(e) => setQuery(e.target.value)}] *)
Definition onChange (text : string) : proc := SetQuery text ;;; Return.

(** *** One handler run on its own *)

Inductive ending : Type :=
  | Completed
  | Rejected (e : error)
  | Pending.

(** What a run of a handler did: the state it left, the calls to the
    resolution client in order, the state at each [await], and how it
    ended. *)
Record run_trace : Type := {
  final : state;
  calls : list api_call;
  at_await : list state;
  ended : ending
}.

Definition awaited (c : api_call) (s : state) (t : run_trace) : run_trace :=
  {| final := final t; calls := c :: calls t;
     at_await := s :: at_await t; ended := ended t |}.

(** [exec p nets s] runs [p] from [s]; the n-th call it awaits settles
    against the n-th element of [nets], and the run is left [Pending]
    at a call for which [nets] has no element. *)
Fixpoint exec (p : proc) (nets : list network) (s : state) : run_trace :=
  match p with
  | Return => {| final := s; calls := []; at_await := []; ended := Completed |}
  | Reject e => {| final := s; calls := []; at_await := []; ended := Rejected e |}
  | Set_ u k => exec k nets (apply_setter u s)
  | Await c k =>
      match nets with
      | [] => {| final := s; calls := [c]; at_await := [s]; ended := Pending |}
      | net :: rest =>
          match perform net c with
          | Normal v => awaited c s (exec (k v) rest s)
          | Throw e =>
              {| final := s; calls := [c]; at_await := [s]; ended := Rejected e |}
          end
      end
  end.

(** *** The mounted component *)

Inductive handler : Type :=
  | SearchForProfile (query : string)
  | HandleSelect (profile : value)
  | HandleClickOutside (target : node)
  | OnChange (text : string).

(** An async handler suspended at an [await]. *)
Record frame : Type := {
  origin : handler;
  waiting_on : api_call;
  resume : value -> proc
}.

Record app : Type := {
  ui : state;
  (** the debounce timer is running *)
  timer : bool;
  suspended : list frame;
  (** every call made to the resolution client so far *)
  called : list api_call
}.

Definition with_ui (f : state -> state) (a : app) : app :=
  {| ui := f (ui a); timer := timer a; suspended := suspended a;
     called := called a |}.

Definition with_timer (b : bool) (a : app) : app :=
  {| ui := ui a; timer := b; suspended := suspended a; called := called a |}.

Definition suspend (f : frame) (a : app) : app :=
  {| ui := ui a; timer := timer a; suspended := suspended a ++ [f];
     called := called a ++ [waiting_on f] |}.

Definition resumed (i : nat) (a : app) : app :=
  {| ui := ui a; timer := timer a; suspended := delete i (suspended a);
     called := called a |}.

(** Runs a handler up to its next [await], or to its end. *)
Fixpoint run (o : handler) (p : proc) (a : app) : app :=
  match p with
  | Return | Reject _ => a
  | Set_ u k => run o k (with_ui (apply_setter u) a)
  | Await c k => suspend {| origin := o; waiting_on := c; resume := k |} a
  end.

(** The element [searchRef] is attached to is rendered in every state. *)
Definition searchRef_current : option (node -> bool) :=
  Some (fun n => match n with WithinSearch => true | Elsewhere => false end).

Definition start (o : handler) : proc :=
  match o with
  | SearchForProfile query => searchForProfile query
  | HandleSelect profile => handleSelect profile
  | HandleClickOutside target => handleClickOutside searchRef_current target
  | OnChange text => onChange text
  end.

Inductive event : Type :=
  (** the user edits the input *)
  | Change (text : string)
  (** the debounce timer runs out *)
  | DebounceElapsed
  (** the user clicks the row in the dropdown *)
  | ClickRow
  (** [mousedown] on the document *)
  | MouseDown (target : node)
  (** the call that the [i]-th suspended handler awaits settles *)
  | Settle (i : nat) (net : network).

Definition dispatch (e : event) (a : app) : app :=
  match e with
  | Change text => run (OnChange text) (start (OnChange text)) a
  | DebounceElapsed =>
      if timer a then
        let o := SearchForProfile (query (ui a)) in
        run o (start o) (with_timer false a)
      else a
  | ClickRow =>
      if truthy (searchProfile (ui a)) then
        let o := HandleSelect (searchProfile (ui a)) in
        run o (start o) a
      else a
  | MouseDown target =>
      run (HandleClickOutside target) (start (HandleClickOutside target)) a
  | Settle i net =>
      match suspended a !! i with
      | Some f =>
          match perform net (waiting_on f) with
          | Normal v => run (origin f) (resume f v) (resumed i a)
          | Throw _ => resumed i a
          end
      | None => a
      end
  end.

(** [useDebounce(..., 300, [query])]: the timer is restarted whenever
    [query] has changed. *)
Definition useDebounce (before after : app) : app :=
  if String.eqb (query (ui before)) (query (ui after)) then after
  else with_timer true after.

Definition step (e : event) (a : app) : app := useDebounce a (dispatch e a).

(** The component as mounted; [useDebounce] starts its timer then. *)
Definition mounted : app :=
  {| ui := {| query := ""; searchProfile := VNull; selectedProfile := VNull;
              blocklist := VArr []; isSearching := false |};
     timer := true; suspended := []; called := [] |}.

Definition steps (es : list event) (a : app) : app :=
  fold_left (fun a e => step e a) es a.

Inductive reachable : app -> Prop :=
  | reachable_mounted : reachable mounted
  | reachable_step e a : reachable a -> reachable (step e a).
End Controller.

(** ** Rendering *)

Inductive panel_content : Type :=
  | EmptyMessage (text : string)
  | Rows (blocks : list value).

Record panel : Type := {
  title : string;
  subtitle : option value;
  content : panel_content
}.

(** The children of the page that depend on the state: the input, the
    dropdown row and the blocklist panel, the last two with their props. *)
Inductive element : Type :=
  | EInput (value : string)
  | ESearchResult (profile : value)
  | EBlocklistView (selectedProfile blocklist : value)
  | EText (text : string).

Section Rendering.
Context {js : Builtins}.

(** [blocklist.map(...)]: only an array has the method. *)
Definition map_blocks (blocklist : value) : completion (list value) :=
  match blocklist with
  | VArr items => Normal items
  | _ => Throw TypeError
  end.

(** The panel: [title] is the heading with the handle converted as by a
    template literal (for a handle that is [undefined] or [null] React
    prints nothing after the [@]), [subtitle] the display name when it
    is truthy, [content] the empty message or the rows. *)
Definition BlocklistView (selectedProfile blocklist : value) : completion panel :=
  let* _avatar := get selectedProfile "avatar" in
  let* handle := get selectedProfile "handle" in
  let* displayName := get selectedProfile "displayName" in
  let* len := get blocklist "length" in
  let* body :=
    if strict_eq_zero len then
      Normal (EmptyMessage "No users have blocked this handle.")
    else
      let* blocks := map_blocks blocklist in
      Normal (Rows blocks) in
  Normal {| title := "Accounts blocking @" ++ to_string handle;
            subtitle := if truthy displayName then Some displayName else None;
            content := body |}.

(** What React shows for a falsy [v] in [{v && ...}]: a number is
    printed, anything else shows nothing. *)
Definition falsy_child (v : value) : list element :=
  match v with
  | VNum _ => [EText (to_string v)]
  | _ => []
  end.

Definition BlocklistApp (s : state) : completion (list element) :=
  let dropdown :=
    if truthy (searchProfile s) then [ESearchResult (searchProfile s)]
    else falsy_child (searchProfile s) in
  let* panel :=
    if truthy (selectedProfile s) then
      let* len := get (blocklist s) "length" in
      Normal (if gt_zero len
              then [EBlocklistView (selectedProfile s) (blocklist s)]
              else [])
    else Normal (falsy_child (selectedProfile s)) in
  Normal (EInput (query s) :: dropdown ++ panel).

Definition is_panel (e : element) : bool :=
  match e with
  | EBlocklistView _ _ => true
  | _ => false
  end.

(** The blocklist panel is among the elements rendered. *)
Definition panel_shown (s : state) : bool :=
  match BlocklistApp s with
  | Normal els => existsb is_panel els
  | Throw _ => false
  end.
End Rendering.

(** ** Suspended handlers and transitions *)

(** [residual p q]: [q] is what is left of [p] after some of its setters
    have run and some of its awaited calls have settled. *)
Inductive residual {js : Builtins} : proc -> proc -> Prop :=
  | residual_here p : residual p p
  | residual_set u k q : residual k q -> residual (Set_ u k) q
  | residual_await c k net v q :
      perform net c = Normal v -> residual (k v) q -> residual (Await c k) q.

(** Every suspended handler is at an [await] of the handler it began as. *)
Definition frame_ok {js : Builtins} (f : frame) : Prop :=
  residual (start (origin f)) (Await (waiting_on f) (resume f)).

(** The two places at which [searchForProfile] can be suspended. *)
Inductive search_frame {js : Builtins} (query : string)
    : api_call -> (value -> proc) -> Prop :=
  | awaiting_did :
      search_frame query (GetDidFromHandle query)
        (fun did =>
           if truthy did then
             await* profileData := GetProfileByDid did ;;;
             SetSearchProfile profileData ;;; SetIsSearching false ;;; Return
           else
             SetSearchProfile VNull ;;; SetIsSearching false ;;; Return)
  | awaiting_profile net did :
      API.getDidFromHandle net query = Normal did ->
      truthy did = true ->
      search_frame query (GetProfileByDid did)
        (fun profileData =>
           SetSearchProfile profileData ;;; SetIsSearching false ;;; Return).

(** The one place at which [handleSelect] can be suspended. *)
Inductive select_frame (profile : value) : api_call -> (value -> proc) -> Prop :=
  | awaiting_blocklist handle :
      get profile "handle" = Normal handle ->
      select_frame profile (GetBlocklist handle)
        (fun blocklistData =>
           SetBlocklist blocklistData ;;; SetQuery "" ;;;
           SetSearchProfile VNull ;;; Return).

(** What each event does to the React state. *)
Inductive ui_change {js : Builtins} (a : app) : event -> state -> Prop :=
  | change_query text : ui_change a (Change text) (setQuery text (ui a))
  | change_no_timer :
      timer a = false -> ui_change a DebounceElapsed (ui a)
  | change_search_short :
      timer a = true ->
      (String.length (query (ui a)) < 3)%nat ->
      ui_change a DebounceElapsed (setSearchProfile VNull (ui a))
  | change_search_begun :
      timer a = true ->
      (3 <= String.length (query (ui a)))%nat ->
      ui_change a DebounceElapsed (setIsSearching true (ui a))
  | change_no_row :
      truthy (searchProfile (ui a)) = false -> ui_change a ClickRow (ui a)
  | change_selected :
      truthy (searchProfile (ui a)) = true ->
      ui_change a ClickRow (setSelectedProfile (searchProfile (ui a)) (ui a))
  | change_inside : ui_change a (MouseDown WithinSearch) (ui a)
  | change_dismissed :
      ui_change a (MouseDown Elsewhere) (setSearchProfile VNull (ui a))
  | change_no_frame i net :
      suspended a !! i = None -> ui_change a (Settle i net) (ui a)
  | change_unresolved i net f query :
      suspended a !! i = Some f ->
      origin f = SearchForProfile query ->
      (3 <= String.length query)%nat ->
      waiting_on f = GetDidFromHandle query ->
      API.getDidFromHandle net query = Normal VNull ->
      ui_change a (Settle i net)
        (setIsSearching false (setSearchProfile VNull (ui a)))
  | change_resolved i net f query did :
      suspended a !! i = Some f ->
      origin f = SearchForProfile query ->
      (3 <= String.length query)%nat ->
      waiting_on f = GetDidFromHandle query ->
      API.getDidFromHandle net query = Normal did ->
      did <> VNull ->
      ui_change a (Settle i net) (ui a)
  | change_candidate i net f query net0 did profileData :
      suspended a !! i = Some f ->
      origin f = SearchForProfile query ->
      (3 <= String.length query)%nat ->
      API.getDidFromHandle net0 query = Normal did ->
      did <> VNull ->
      waiting_on f = GetProfileByDid did ->
      API.getProfileByDid net did = Normal profileData ->
      ui_change a (Settle i net)
        (setIsSearching false (setSearchProfile profileData (ui a)))
  | change_blocklist i net f profile handle blocklistData :
      suspended a !! i = Some f ->
      origin f = HandleSelect profile ->
      get profile "handle" = Normal handle ->
      waiting_on f = GetBlocklist handle ->
      API.getBlocklist net handle = Normal blocklistData ->
      ui_change a (Settle i net)
        (setSearchProfile VNull
           (setQuery "" (setBlocklist blocklistData (ui a)))).

(** ** Members of a parsed response *)

(** The member [key] of a parsed object, when it has one. *)
Definition member (v : value) (key : string) : option value :=
  match v with
  | VObj fields => own_property key fields
  | _ => None
  end.

(** The blocklist member nested in the response of the blocklist service,
    [data.blocklist], when the response has one. *)
Definition nested_blocklist (data : value) : option value :=
  match member data "data" with
  | Some inner => member inner "blocklist"
  | None => None
  end.

(** ** Sample data *)

Definition alice : value :=
  VObj [("handle", VStr "alice"); ("displayName", VStr "Alice")].

Definition bob_block : value :=
  VObj [("handle", VStr "bob"); ("blocked_date", VStr "2024-01-01");
        ("status", VBool true)].

Definition respond (st : Z) (data : value) : network :=
  fun _ => Responds {| status := st; body := Some data |}.

(** The identity service resolves the handle. *)
Definition net_did : network := respond 200 (VObj [("did", VStr "did:plc:alice")]).

(** The identity service answers with an empty identifier. *)
Definition net_empty_did : network := respond 200 (VObj [("did", VStr "")]).

Definition net_profile : network := respond 200 alice.

(** The profile service refuses the request: status 400 and an error
    object as the body. *)
Definition profile_not_found : value :=
  VObj [("error", VStr "InvalidRequest"); ("message", VStr "Profile not found")].

Definition net_profile_error : network := respond 400 profile_not_found.

Definition net_blocklist : network :=
  respond 200 (VObj [("data", VObj [("blocklist", VArr [bob_block])])]).

Definition net_no_blocks : network :=
  respond 200 (VObj [("data", VObj [("blocklist", VArr [])])]).

Definition net_down : network := fun _ => NetworkError.

Definition net_garbled : network :=
  fun _ => Responds {| status := 200; body := None |}.

(** The user types "alice", the quiet period passes and the handle
    resolves: the profile fetch is under way. *)
Definition resolving_alice : app :=
  steps (js := plain_builtins)
    [Change "alice"; DebounceElapsed; Settle 0 net_did] mounted.

(** The profile arrives: alice is the candidate. *)
Definition found_alice : app :=
  step (js := plain_builtins) (Settle 0 net_profile) resolving_alice.

(** The user clicks the row: the blocklist fetch is under way. *)
Definition selecting_alice : app :=
  step (js := plain_builtins) ClickRow found_alice.

(** The blocklist arrives. *)
Definition selected_alice : app :=
  step (js := plain_builtins) (Settle 0 net_blocklist) selecting_alice.

Definition carol : value :=
  VObj [("handle", VStr "carol"); ("displayName", VStr "Carol")].

(** With the blocklist of alice on the page, the user looks up carol and
    clicks the row: the blocklist fetch for carol is under way. *)
Definition selecting_carol : app :=
  steps (js := plain_builtins)
    [Change "carol"; DebounceElapsed;
     Settle 0 (respond 200 (VObj [("did", VStr "did:plc:carol")]));
     Settle 0 (respond 200 carol);
     ClickRow]
    selected_alice.

(** The user types "alice" and a resolution starts; the user then shortens
    the text to "al" and the quiet period passes again; only then do the
    answers to the first resolution arrive. *)
Definition stale_resolution : app :=
  steps (js := plain_builtins)
    [Change "alice"; DebounceElapsed; Change "al"; DebounceElapsed;
     Settle 0 net_did; Settle 0 net_profile]
    mounted.

(** ** Further predicates on the mounted component *)

(** The handler that was suspended began as a resolution. *)
Definition search_origin (f : frame) : Prop :=
  exists query, origin f = SearchForProfile query.

(** *** What happened in the course of a run

    A run of the component is the list of events it received since it was
    mounted; the predicates below say that something happened in the
    course of a run, by pointing at the event of the run at which it
    happened. *)

(** The quiet period ended while the timer was running and the query was
    [text], of length 3 or more: a resolution was begun for [text]. *)
Definition begun {js : Builtins} (es : list event) (text : string) : Prop :=
  exists es1 es2,
    es = (es1 ++ DebounceElapsed :: es2)%list
    /\ timer (steps es1 mounted) = true
    /\ query (ui (steps es1 mounted)) = text
    /\ (3 <= String.length text)%nat.

(** The call [c] awaited by a handler that began as [o] settled on the
    network [net]. *)
Definition settled {js : Builtins}
    (es : list event) (o : handler) (c : api_call) (net : network) : Prop :=
  exists es1 es2 i f,
    es = (es1 ++ Settle i net :: es2)%list
    /\ suspended (steps es1 mounted) !! i = Some f
    /\ origin f = o
    /\ waiting_on f = c.

(** A resolution begun for [text] got [did] from [getDidFromHandle]. *)
Definition resolved {js : Builtins}
    (es : list event) (text : string) (did : value) : Prop :=
  begun es text
  /\ exists net,
       settled es (SearchForProfile text) (GetDidFromHandle text) net
       /\ API.getDidFromHandle net text = Normal did.

(** A resolution got [profile] from [getProfileByDid], for an identifier
    that it had resolved. *)
Definition fetched {js : Builtins} (es : list event) (profile : value) : Prop :=
  exists text did net,
    resolved es text did
    /\ truthy did = true
    /\ settled es (SearchForProfile text) (GetProfileByDid did) net
    /\ API.getProfileByDid net did = Normal profile.

(** A selection of a fetched profile got [blocklistData] from
    [getBlocklist], called with the handle of that profile. *)
Definition listed {js : Builtins} (es : list event) (blocklistData : value) : Prop :=
  exists profile handle net,
    truthy profile = true
    /\ fetched es profile
    /\ get profile "handle" = Normal handle
    /\ settled es (HandleSelect profile) (GetBlocklist handle) net
    /\ API.getBlocklist net handle = Normal blocklistData.

(** What the run says of a suspended handler. *)
Definition frame_history {js : Builtins} (es : list event) (f : frame) : Prop :=
  match origin f with
  | SearchForProfile text =>
      begun es text
      /\ forall did, waiting_on f = GetProfileByDid did ->
                     truthy did = true /\ resolved es text did
  | HandleSelect profile => truthy profile = true /\ fetched es profile
  | _ => True
  end.

(** What the run says of a call to the resolution client. *)
Definition guarded {js : Builtins} (es : list event) (c : api_call) : Prop :=
  match c with
  | GetDidFromHandle handle => begun es handle
  | GetProfileByDid did =>
      truthy did = true /\ exists text, resolved es text did
  | GetBlocklist handle =>
      exists profile,
        truthy profile = true
        /\ fetched es profile
        /\ get profile "handle" = Normal handle
  end.

(** What the run says of the state it leads to. *)
Definition history_ok {js : Builtins} (es : list event) : Prop :=
  let a := steps es mounted in
  Forall (frame_history es) (suspended a)
  /\ Forall (guarded es) (called a)
  /\ (searchProfile (ui a) <> VNull -> fetched es (searchProfile (ui a)))
  /\ (selectedProfile (ui a) <> VNull ->
      truthy (selectedProfile (ui a)) = true
      /\ fetched es (selectedProfile (ui a)))
  /\ (blocklist (ui a) = VArr [] \/ listed es (blocklist (ui a))).

(** What one event does to the suspended handlers and to the call log. *)
Inductive log_change {js : Builtins} (a : app)
    : event -> list frame -> list api_call -> Prop :=
  | log_unchanged e : log_change a e (suspended a) (called a)
  | log_begun f :
      timer a = true ->
      (3 <= String.length (query (ui a)))%nat ->
      origin f = SearchForProfile (query (ui a)) ->
      waiting_on f = GetDidFromHandle (query (ui a)) ->
      log_change a DebounceElapsed
        (suspended a ++ [f]) (called a ++ [GetDidFromHandle (query (ui a))])
  | log_selected handle f :
      truthy (searchProfile (ui a)) = true ->
      get (searchProfile (ui a)) "handle" = Normal handle ->
      origin f = HandleSelect (searchProfile (ui a)) ->
      waiting_on f = GetBlocklist handle ->
      log_change a ClickRow
        (suspended a ++ [f]) (called a ++ [GetBlocklist handle])
  | log_resolved i net f0 text did f :
      suspended a !! i = Some f0 ->
      origin f0 = SearchForProfile text ->
      waiting_on f0 = GetDidFromHandle text ->
      API.getDidFromHandle net text = Normal did ->
      truthy did = true ->
      origin f = SearchForProfile text ->
      waiting_on f = GetProfileByDid did ->
      log_change a (Settle i net)
        (delete i (suspended a) ++ [f]) (called a ++ [GetProfileByDid did])
  | log_settled i net f0 :
      suspended a !! i = Some f0 ->
      log_change a (Settle i net) (delete i (suspended a)) (called a).

(** Two outcomes of a fetch that differ at most in the status of the
    response. *)
Definition same_body (o1 o2 : fetch_outcome) : Prop :=
  match o1, o2 with
  | NetworkError, NetworkError => True
  | Responds r1, Responds r2 => body r1 = body r2
  | _, _ => False
  end.

(** ** The keys of the rows of the panel *)

Section Rows.
Context {js : Builtins}.

(** [`${block.handle}-${index}`] *)
Definition row_key (block : value) (index : nat) : completion string :=
  let* handle := get block "handle" in
  Normal (to_string handle ++ "-" ++ to_string (VNum (Z.of_nat index))).

Fixpoint row_keys_from (index : nat) (blocks : list value)
  : completion (list string) :=
  match blocks with
  | [] => Normal []
  | block :: rest =>
      let* key := row_key block index in
      let* keys := row_keys_from (S index) rest in
      Normal (key :: keys)
  end.

(** The keys of [blocklist.map((block, index) => <BlocklistItem key=... />)],
    in the order of the rows. *)
Definition row_keys (blocklist : value) : completion (list string) :=
  let* blocks := map_blocks blocklist in
  row_keys_from 0 blocks.
End Rows.

(** The decimal spelling of an index. *)
Definition decimal (n : nat) : string :=
  NilZero.string_of_int (Z.to_int (Z.of_nat n)).

Fixpoint has_dash (s : string) : bool :=
  match s with
  | EmptyString => false
  | String c rest => Ascii.eqb c "-" || has_dash rest
  end.

(** What follows the last ["-"] of [s]. *)
Fixpoint after_last_dash (s : string) : string :=
  match s with
  | EmptyString => EmptyString
  | String c rest =>
      if has_dash rest then after_last_dash rest
      else if Ascii.eqb c "-" then rest else String c rest
  end.

(** ** Properties of the resolution client *)

Example percent_encode_did :
  percent_encode "did:plc:alice" = "did%3Aplc%3Aalice".
Proof. reflexivity. Qed.

Lemma try_catch_total {A} (body : completion A) (fallback : A) :
  exists a, try_catch body (fun _ => Normal fallback) = Normal a.
Proof. destruct body; simpl; eauto. Qed.

Lemma getDidFromHandle_total net handle :
  exists v, API.getDidFromHandle net handle = Normal v.
Proof. apply try_catch_total. Qed.

Lemma getProfileByDid_total {js : Builtins} net did :
  exists v, API.getProfileByDid net did = Normal v.
Proof. apply try_catch_total. Qed.

Lemma getBlocklist_total {js : Builtins} net handle :
  exists v, API.getBlocklist net handle = Normal v.
Proof. apply try_catch_total. Qed.

Lemma perform_total {js : Builtins} net c : exists v, perform net c = Normal v.
Proof.
  destruct c; simpl;
    [apply getDidFromHandle_total | apply getProfileByDid_total
     | apply getBlocklist_total].
Qed.

(** What [getDidFromHandle] returns is [null] or truthy, so the test
    [if (did)] of [searchForProfile] separates exactly [null]. *)
Lemma getDidFromHandle_null_or_truthy net handle did :
  API.getDidFromHandle net handle = Normal did ->
  did = VNull /\ truthy did = false \/ did <> VNull /\ truthy did = true.
Proof.
  unfold API.getDidFromHandle.
  destruct (fetch net _ _) as [r|]; simpl; [|intros [= <-]; auto].
  destruct (json r) as [data|]; simpl; [|intros [= <-]; auto].
  destruct (get data "did") as [d|]; simpl; [|intros [= <-]; auto].
  intros [= <-]. unfold js_or. destruct (truthy d) eqn:E; auto.
  right. split; [|done]. intros ->. discriminate.
Qed.

(** C8, as amended: [getDidFromHandle] returns [null] when the fetch is
    rejected, when the body is not JSON, when the parsed body has no [did]
    member (or is [null]), and when the member is falsy (the empty
    string, [0], [false], [null]); otherwise it returns the member. *)
Theorem getDidFromHandle_result (net : network) (handle : string) :
  let result := API.getDidFromHandle net handle in
  let sent := fetch net (API.resolveHandle_url handle) API.static_headers in
  (forall e, sent = Throw e -> result = Normal VNull)
  /\ (forall r e, sent = Normal r -> json r = Throw e -> result = Normal VNull)
  /\ (forall r fields,
        sent = Normal r -> json r = Normal (VObj fields) ->
        own_property "did" fields = None -> result = Normal VNull)
  /\ (forall r data e,
        sent = Normal r -> json r = Normal data ->
        get data "did" = Throw e -> result = Normal VNull)
  /\ (forall r data did,
        sent = Normal r -> json r = Normal data ->
        get data "did" = Normal did -> truthy did = false ->
        result = Normal VNull)
  /\ (forall r data did,
        sent = Normal r -> json r = Normal data ->
        get data "did" = Normal did -> truthy did = true ->
        result = Normal did).
Proof.
  cbv zeta. unfold API.getDidFromHandle.
  repeat split.
  - intros e ->. reflexivity.
  - intros r e -> H. simpl. rewrite H. reflexivity.
  - intros r fields -> H Hnone. simpl. rewrite H. simpl. rewrite Hnone. reflexivity.
  - intros r data e -> H Hget. simpl. rewrite H. simpl. rewrite Hget. reflexivity.
  - intros r data did -> H Hget Hf. simpl. rewrite H. simpl. rewrite Hget. simpl.
    unfold js_or. rewrite Hf. reflexivity.
  - intros r data did -> H Hget Ht. simpl. rewrite H. simpl. rewrite Hget. simpl.
    unfold js_or. rewrite Ht. reflexivity.
Qed.

Lemma getDidFromHandle_result_witness :
  truthy (VStr "did:plc:alice") = true
  /\ API.getDidFromHandle net_did "alice"
     = Normal (VStr "did:plc:alice").
Proof.
  split; [reflexivity|].
  apply (getDidFromHandle_result net_did "alice")
    with (r := {| status := 200; body := Some (VObj [("did", VStr "did:plc:alice")]) |})
         (data := VObj [("did", VStr "did:plc:alice")]);
    reflexivity.
Defined.

(** C8 as stated fails: the response has an identifier member, the empty
    string, and [getDidFromHandle] returns [null], not that member. *)
Lemma getDidFromHandle_drops_empty_identifier :
  fetch net_empty_did (API.resolveHandle_url "alice") API.static_headers
    = Normal {| status := 200; body := Some (VObj [("did", VStr "")]) |}
  /\ get (VObj [("did", VStr "")]) "did" = Normal (VStr "")
  /\ API.getDidFromHandle net_empty_did "alice" = Normal VNull
  /\ API.getDidFromHandle net_empty_did "alice" <> Normal (VStr "")
  /\ ~ (forall net handle r fields did,
          fetch net (API.resolveHandle_url handle) API.static_headers = Normal r ->
          json r = Normal (VObj fields) ->
          own_property "did" fields = Some did ->
          API.getDidFromHandle net handle = Normal did).
Proof.
  do 3 (split; [reflexivity|]). split; [discriminate|].
  intros H.
  specialize (H net_empty_did "alice" _ [("did", VStr "")] (VStr "")
                eq_refl eq_refl eq_refl).
  discriminate H.
Qed.

(** C3, as amended: [getProfileByDid] never throws; it returns [null] when
    the identifier cannot be encoded, when the fetch is rejected and when
    the body is not JSON; when a response arrives whose body is JSON it
    returns the parsed body, whatever the status of the response. *)
Theorem getProfileByDid_result {js : Builtins} (net : network) (did : value) :
  let result := API.getProfileByDid net did in
  (exists v, result = Normal v)
  /\ (forall e, encodeURIComponent did = Throw e -> result = Normal VNull)
  /\ (forall actor,
        encodeURIComponent did = Normal actor ->
        let sent := fetch net (API.getProfile_url actor) API.static_headers in
        (forall e, sent = Throw e -> result = Normal VNull)
        /\ (forall r e, sent = Normal r -> json r = Throw e -> result = Normal VNull)
        /\ (forall r data, sent = Normal r -> json r = Normal data ->
              result = Normal data)).
Proof.
  cbv zeta. split; [apply getProfileByDid_total|].
  unfold API.getProfileByDid. split.
  - intros e ->. reflexivity.
  - intros actor ->. simpl. repeat split.
    + intros e ->. reflexivity.
    + intros r e -> H. simpl. rewrite H. reflexivity.
    + intros r data -> H. simpl. rewrite H. reflexivity.
Qed.

Lemma getProfileByDid_result_witness :
  encodeURIComponent (js := plain_builtins) (VStr "did:plc:alice")
    = Normal "did%3Aplc%3Aalice"
  /\ API.getProfileByDid (js := plain_builtins) net_profile (VStr "did:plc:alice")
     = Normal alice.
Proof.
  split; [reflexivity|].
  apply (getProfileByDid_result (js := plain_builtins) net_profile
           (VStr "did:plc:alice"))
    with (actor := "did%3Aplc%3Aalice")
         (r := {| status := 200; body := Some alice |});
    reflexivity.
Defined.

(** C3 as stated fails: the profile service answers with status 400 and an
    error object, and [getProfileByDid] returns that object, not [null]. *)
Lemma getProfileByDid_returns_error_body :
  fetch net_profile_error (API.getProfile_url "did%3Aplc%3Aalice")
    API.static_headers
    = Normal {| status := 400; body := Some profile_not_found |}
  /\ ok {| status := 400; body := Some profile_not_found |} = false
  /\ API.getProfileByDid (js := plain_builtins) net_profile_error
       (VStr "did:plc:alice") = Normal profile_not_found
  /\ API.getProfileByDid (js := plain_builtins) net_profile_error
       (VStr "did:plc:alice") <> Normal VNull
  /\ ~ (forall (js : Builtins) net did actor r,
          encodeURIComponent did = Normal actor ->
          fetch net (API.getProfile_url actor) API.static_headers = Normal r ->
          ok r = false ->
          API.getProfileByDid net did = Normal VNull).
Proof.
  do 3 (split; [reflexivity|]). split; [discriminate|].
  intros H.
  specialize (H plain_builtins net_profile_error (VStr "did:plc:alice")
                "did%3Aplc%3Aalice" _ eq_refl eq_refl eq_refl).
  discriminate H.
Qed.

(** C9: [getBlocklist] never throws; it returns the empty array when the
    fetch is rejected, when the body is not JSON and when the parsed body
    has no nested blocklist member; when that member is an array, it
    returns the array.  (A member that is not an array is returned as it
    is when truthy, and replaced by the empty array otherwise.) *)
Theorem getBlocklist_result {js : Builtins} (net : network) (handle : value) :
  let result := API.getBlocklist net handle in
  let sent :=
    fetch net (API.blocklist_url (to_string handle)) API.static_headers in
  (exists v, result = Normal v)
  /\ (forall e, sent = Throw e -> result = Normal (VArr []))
  /\ (forall r e, sent = Normal r -> json r = Throw e -> result = Normal (VArr []))
  /\ (forall r data,
        sent = Normal r -> json r = Normal data ->
        nested_blocklist data = None -> result = Normal (VArr []))
  /\ (forall r data items,
        sent = Normal r -> json r = Normal data ->
        nested_blocklist data = Some (VArr items) ->
        result = Normal (VArr items))
  /\ (forall r data found,
        sent = Normal r -> json r = Normal data ->
        nested_blocklist data = Some found ->
        result = Normal (js_or found (VArr []))).
Proof.
  cbv zeta. split; [apply getBlocklist_total|].
  unfold API.getBlocklist. repeat split.
  - intros e ->. reflexivity.
  - intros r e -> H. simpl. rewrite H. reflexivity.
  - intros r data -> H Hnone. simpl. rewrite H. simpl.
    unfold nested_blocklist in Hnone.
    destruct data; simpl in *; try reflexivity.
    destruct (own_property "data" fields) as [inner|]; simpl; [|reflexivity].
    destruct inner; simpl in *; try reflexivity.
    rewrite Hnone. reflexivity.
  - intros r data items -> H Hsome. simpl. rewrite H. simpl.
    unfold nested_blocklist in Hsome.
    destruct data; simpl in *; try discriminate.
    destruct (own_property "data" fields) as [inner|]; simpl; [|discriminate].
    destruct inner; simpl in *; try discriminate.
    rewrite Hsome. reflexivity.
  - intros r data b -> H Hsome. simpl. rewrite H. simpl.
    unfold nested_blocklist in Hsome.
    destruct data; simpl in *; try discriminate.
    destruct (own_property "data" fields) as [inner|]; simpl; [|discriminate].
    destruct inner; simpl in *; try discriminate.
    rewrite Hsome. reflexivity.
Qed.

Lemma getBlocklist_result_witness :
  nested_blocklist (VObj [("data", VObj [("blocklist", VArr [bob_block])])])
    = Some (VArr [bob_block])
  /\ API.getBlocklist (js := plain_builtins) net_blocklist (VStr "alice")
     = Normal (VArr [bob_block]).
Proof.
  split; [reflexivity|].
  apply (getBlocklist_result (js := plain_builtins) net_blocklist (VStr "alice"))
    with (r := {| status := 200;
                  body := Some (VObj [("data", VObj [("blocklist", VArr [bob_block])])]) |})
         (data := VObj [("data", VObj [("blocklist", VArr [bob_block])])]);
    reflexivity.
Defined.

(** The three functions on a network that is down, and on a body that is
    not JSON. *)
Example client_when_network_down :
  API.getDidFromHandle net_down "xyz" = Normal VNull
  /\ API.getProfileByDid (js := plain_builtins) net_down (VStr "did:plc:alice")
     = Normal VNull
  /\ API.getBlocklist (js := plain_builtins) net_down (VStr "alice")
     = Normal (VArr []).
Proof. repeat split. Qed.

Example client_when_body_garbled :
  API.getDidFromHandle net_garbled "xyz" = Normal VNull
  /\ API.getProfileByDid (js := plain_builtins) net_garbled (VStr "did:plc:alice")
     = Normal VNull
  /\ API.getBlocklist (js := plain_builtins) net_garbled (VStr "alice")
     = Normal (VArr []).
Proof. repeat split. Qed.

(** ** The handlers, run on their own *)

Lemma exec_searchForProfile_short {js : Builtins} query nets s :
  (String.length query < 3)%nat ->
  exec (searchForProfile query) nets s
  = {| final := setSearchProfile VNull s; calls := []; at_await := [];
       ended := Completed |}.
Proof.
  intros Hlen. unfold searchForProfile.
  destruct (Z.ltb_spec (Z.of_nat (String.length query)) 3); [reflexivity|lia].
Qed.

Lemma exec_searchForProfile_found {js : Builtins} query net1 net2 rest s did profileData :
  (3 <= String.length query)%nat ->
  API.getDidFromHandle net1 query = Normal did ->
  truthy did = true ->
  API.getProfileByDid net2 did = Normal profileData ->
  exec (searchForProfile query) (net1 :: net2 :: rest) s
  = {| final := setIsSearching false
                  (setSearchProfile profileData (setIsSearching true s));
       calls := [GetDidFromHandle query; GetProfileByDid did];
       at_await := [setIsSearching true s; setIsSearching true s];
       ended := Completed |}.
Proof.
  intros Hlen Hdid Ht Hprofile. unfold searchForProfile.
  destruct (Z.ltb_spec (Z.of_nat (String.length query)) 3); [lia|].
  simpl. rewrite Hdid, Ht. simpl. rewrite Hprofile. reflexivity.
Qed.

Lemma exec_searchForProfile_unresolved {js : Builtins} query net1 rest s :
  (3 <= String.length query)%nat ->
  API.getDidFromHandle net1 query = Normal VNull ->
  exec (searchForProfile query) (net1 :: rest) s
  = {| final := setIsSearching false
                  (setSearchProfile VNull (setIsSearching true s));
       calls := [GetDidFromHandle query];
       at_await := [setIsSearching true s];
       ended := Completed |}.
Proof.
  intros Hlen Hdid. unfold searchForProfile.
  destruct (Z.ltb_spec (Z.of_nat (String.length query)) 3); [lia|].
  simpl. rewrite Hdid. reflexivity.
Qed.

Lemma get_truthy profile key :
  truthy profile = true -> exists v, get profile key = Normal v.
Proof. destruct profile; simpl; try discriminate; eauto. Qed.

Lemma exec_handleSelect {js : Builtins} profile net rest s handle blocklistData :
  get profile "handle" = Normal handle ->
  API.getBlocklist net handle = Normal blocklistData ->
  exec (handleSelect profile) (net :: rest) s
  = {| final := setSearchProfile VNull
                  (setQuery "" (setBlocklist blocklistData
                                  (setSelectedProfile profile s)));
       calls := [GetBlocklist handle];
       at_await := [setSelectedProfile profile s];
       ended := Completed |}.
Proof.
  intros Hget Hbl. unfold handleSelect. rewrite Hget. simpl.
  rewrite Hbl. reflexivity.
Qed.

(** C1: a resolution for a query shorter than 3 sets the candidate to
    [null], leaves every other field as it was and calls nothing.  For a
    longer query it sets the busy flag, calls [getDidFromHandle] with the
    query and is suspended there in the state that differs from the
    initial one in the busy flag only, which is [true]; when the call
    yields a non-null identifier it calls [getProfileByDid] with it, is
    suspended in that same state, and stores what the call returns as
    the candidate; when it yields [null] it makes no second call and
    sets the candidate to [null]; either way the sequence completes with
    the busy flag [false] and the query, the selected profile and the
    blocklist as they were.  The states are written out field by
    field. *)
Theorem searchForProfile_sequence {js : Builtins}
    (text : string) (net1 net2 : network) (rest : list network) (s : state) :
  let busy :=
    {| query := query s; searchProfile := searchProfile s;
       selectedProfile := selectedProfile s; blocklist := blocklist s;
       isSearching := true |} in
  ((String.length text < 3)%nat ->
   forall nets,
     exec (searchForProfile text) nets s
     = {| final :=
            {| query := query s; searchProfile := VNull;
               selectedProfile := selectedProfile s; blocklist := blocklist s;
               isSearching := isSearching s |};
          calls := []; at_await := []; ended := Completed |})
  /\ ((3 <= String.length text)%nat ->
      exists did,
        API.getDidFromHandle net1 text = Normal did
        /\ (did <> VNull ->
            exists profileData,
              API.getProfileByDid net2 did = Normal profileData
              /\ exec (searchForProfile text) (net1 :: net2 :: rest) s
                 = {| final :=
                        {| query := query s; searchProfile := profileData;
                           selectedProfile := selectedProfile s;
                           blocklist := blocklist s;
                           isSearching := false |};
                      calls := [GetDidFromHandle text; GetProfileByDid did];
                      at_await := [busy; busy];
                      ended := Completed |})
        /\ (did = VNull ->
            exec (searchForProfile text) (net1 :: rest) s
            = {| final :=
                   {| query := query s; searchProfile := VNull;
                      selectedProfile := selectedProfile s;
                      blocklist := blocklist s;
                      isSearching := false |};
                 calls := [GetDidFromHandle text];
                 at_await := [busy];
                 ended := Completed |})).
Proof.
  cbv zeta. split.
  - intros Hlen nets. by rewrite exec_searchForProfile_short.
  - intros Hlen.
    destruct (getDidFromHandle_total net1 text) as [did Hdid].
    exists did. split; [done|]. split.
    + intros Hnn.
      destruct (getDidFromHandle_null_or_truthy _ _ _ Hdid) as [[-> _]|[_ Ht]];
        [done|].
      destruct (getProfileByDid_total net2 did) as [profileData Hp].
      exists profileData. split; [done|].
      by rewrite (exec_searchForProfile_found text net1 net2 rest s did
                    profileData Hlen Hdid Ht Hp).
    + intros ->. by rewrite (exec_searchForProfile_unresolved text net1 rest s
                               Hlen Hdid).
Qed.

Lemma searchForProfile_sequence_witness :
  (3 <= String.length "alice")%nat
  /\ API.getDidFromHandle net_did "alice" = Normal (VStr "did:plc:alice")
  /\ VStr "did:plc:alice" <> VNull
  /\ exists profileData,
       API.getProfileByDid (js := plain_builtins) net_profile
         (VStr "did:plc:alice") = Normal profileData
       /\ exec (js := plain_builtins) (searchForProfile "alice")
            [net_did; net_profile]
            {| query := "alice"; searchProfile := VNull;
               selectedProfile := VNull; blocklist := VArr [];
               isSearching := false |}
          = {| final :=
                 {| query := "alice"; searchProfile := profileData;
                    selectedProfile := VNull; blocklist := VArr [];
                    isSearching := false |};
               calls := [GetDidFromHandle "alice";
                         GetProfileByDid (VStr "did:plc:alice")];
               at_await :=
                 [{| query := "alice"; searchProfile := VNull;
                     selectedProfile := VNull; blocklist := VArr [];
                     isSearching := true |};
                  {| query := "alice"; searchProfile := VNull;
                     selectedProfile := VNull; blocklist := VArr [];
                     isSearching := true |}];
               ended := Completed |}.
Proof.
  assert (Hlen : (3 <= String.length "alice")%nat) by (simpl; lia).
  split; [exact Hlen|]. split; [reflexivity|]. split; [discriminate|].
  destruct (proj2 (searchForProfile_sequence (js := plain_builtins)
                     "alice" net_did net_profile []
                     {| query := "alice"; searchProfile := VNull;
                        selectedProfile := VNull; blocklist := VArr [];
                        isSearching := false |}) Hlen)
    as (did & Hdid & Hfound & _).
  injection Hdid as <-. apply Hfound. discriminate.
Defined.

(** The identifier of "xyz" cannot be resolved: the candidate stays
    [null] and no profile is fetched. *)
Example resolution_fails :
  exec (js := plain_builtins) (searchForProfile "xyz") [net_down] (ui mounted)
  = {| final := ui mounted;
       calls := [GetDidFromHandle "xyz"];
       at_await := [setIsSearching true (ui mounted)];
       ended := Completed |}.
Proof. reflexivity. Qed.



(** ** A handler run on its own, inside the mounted component *)

Lemma run_with_timer {js : Builtins} o p b a :
  run o p (with_timer b a) = with_timer b (run o p a).
Proof.
  revert a. induction p as [| |u k IH|]; intros a; simpl; try done.
  apply (IH (with_ui (apply_setter u) a)).
Qed.

Lemma settle_nothing {js : Builtins} net a :
  suspended a = [] -> step (Settle 0 net) a = a.
Proof.
  intros Hs. unfold step, dispatch. rewrite Hs. simpl.
  unfold useDebounce. by rewrite String.eqb_refl.
Qed.

(** When nothing else is suspended and the calls of a handler settle one
    after the other, the component ends in the state, and has made the
    calls, that [exec] gives. *)
Lemma exec_in_app {js : Builtins} o p nets a :
  suspended a = [] ->
  let a' := fold_left (fun a net => step (Settle 0 net) a) nets (run o p a) in
  ui a' = final (exec p nets (ui a))
  /\ called a' = (called a ++ calls (exec p nets (ui a)))%list.
Proof.
  cbv zeta. revert nets a.
  induction p as [|e|u k IH|c k IH]; intros nets a Hs.
  - simpl run. induction nets as [|net nets IHn]; simpl.
    + by rewrite app_nil_r.
    + by rewrite settle_nothing.
  - simpl run. induction nets as [|net nets IHn]; simpl.
    + by rewrite app_nil_r.
    + by rewrite settle_nothing.
  - simpl. apply (IH nets (with_ui (apply_setter u) a)). done.
  - destruct nets as [|net rest]; [done|].
    cbn [fold_left run exec].
    destruct (perform_total net c) as [v Hv]. rewrite Hv.
    set (f := {| origin := o; waiting_on := c; resume := k |}).
    set (a1 := resumed 0 (suspend f a)).
    assert (Hstep : exists b, step (Settle 0 net) (suspend f a)
                              = run o (k v) (with_timer b a1)).
    { unfold step, dispatch. simpl suspended. rewrite Hs.
      change (([] ++ [f])%list !! 0%nat) with (Some f). lazy beta iota.
      change (waiting_on f) with c. rewrite Hv.
      change (origin f) with o. change (resume f v) with (k v). fold a1.
      unfold useDebounce. destruct (String.eqb _ _).
      - exists (timer a1). by destruct a1.
      - exists true. by rewrite run_with_timer. }
    destruct Hstep as [b ->].
    destruct (IH v rest (with_timer b a1)) as [Hui Hcalled].
    { subst a1. simpl. by rewrite Hs. }
    rewrite Hui, Hcalled. subst a1. simpl. split; [done|].
    by rewrite <- app_assoc.
Qed.

(** ** Suspended handlers *)

Lemma residual_trans {js : Builtins} p q r :
  residual p q -> residual q r -> residual p r.
Proof.
  induction 1; intros Hr; [done| |].
  - apply residual_set; auto.
  - eapply residual_await; eauto.
Qed.

Lemma residual_settled {js : Builtins} p c k net v :
  residual p (Await c k) -> perform net c = Normal v -> residual p (k v).
Proof.
  intros Hp Hv. eapply residual_trans; [exact Hp|].
  eapply residual_await; [exact Hv|apply residual_here].
Qed.

Lemma run_frames_ok {js : Builtins} o p a :
  residual (start o) p ->
  Forall frame_ok (suspended a) ->
  Forall frame_ok (suspended (run o p a)).
Proof.
  revert a. induction p as [| |u k IH|c k _]; intros a Hres Hall; simpl; try done.
  - apply IH; [|done].
    eapply residual_trans; [exact Hres|]. apply residual_set, residual_here.
  - apply Forall_app. split; [done|]. by repeat constructor.
Qed.

Lemma suspended_useDebounce {js : Builtins} a a' :
  suspended (useDebounce a a') = suspended a'.
Proof. unfold useDebounce. by destruct (String.eqb _ _). Qed.

Lemma ui_useDebounce {js : Builtins} a a' : ui (useDebounce a a') = ui a'.
Proof. unfold useDebounce. by destruct (String.eqb _ _). Qed.

Lemma step_frames_ok {js : Builtins} e a :
  Forall frame_ok (suspended a) -> Forall frame_ok (suspended (step e a)).
Proof.
  intros Hall. unfold step. rewrite suspended_useDebounce.
  destruct e as [text| | |target|i net]; unfold dispatch.
  - apply run_frames_ok; [apply residual_here|done].
  - destruct (timer a); [|done].
    apply run_frames_ok; [apply residual_here|done].
  - destruct (truthy _); [|done].
    apply run_frames_ok; [apply residual_here|done].
  - apply run_frames_ok; [apply residual_here|done].
  - destruct (suspended a !! i) as [f|] eqn:Hf; [|done].
    assert (Hdel : Forall frame_ok (delete i (suspended a)))
      by (by apply Forall_delete).
    destruct (perform net (waiting_on f)) as [v|] eqn:Hv; [|done].
    apply run_frames_ok; [|done].
    eapply residual_settled; [|exact Hv].
    eapply Forall_lookup_1 in Hall; [exact Hall|exact Hf].
Qed.

Lemma reachable_frames_ok {js : Builtins} a :
  reachable a -> Forall frame_ok (suspended a).
Proof.
  induction 1; [constructor|]. by apply step_frames_ok.
Qed.

Lemma reachable_steps {js : Builtins} es a : reachable a -> reachable (steps es a).
Proof.
  revert a. induction es as [|e es IH]; intros a Ha; [done|].
  simpl. apply IH. by constructor.
Qed.

Lemma searchForProfile_frames {js : Builtins} query c k :
  residual (searchForProfile query) (Await c k) ->
  (3 <= String.length query)%nat /\ search_frame query c k.
Proof.
  unfold searchForProfile.
  destruct (Z.ltb_spec (Z.of_nat (String.length query)) 3) as [Hlt|Hge].
  - intros H. inversion H as [| ? ? ? H1 |]; subst.
    inversion H1.
  - intros H. split; [lia|].
    inversion H as [| ? ? ? H1 |]; subst; clear H.
    inversion H1 as [| | ? ? net did ? Hdid H2]; subst; clear H1.
    + apply awaiting_did.
    + simpl in Hdid. destruct (truthy did) eqn:Ht.
      * inversion H2 as [| | ? ? net2 pd ? Hpd H3]; subst; clear H2.
        -- eapply awaiting_profile; eauto.
        -- inversion H3 as [| ? ? ? H4 |]; subst.
           inversion H4 as [| ? ? ? H5 |]; subst. inversion H5.
      * inversion H2 as [| ? ? ? H3 |]; subst.
        inversion H3 as [| ? ? ? H4 |]; subst. inversion H4.
Qed.

Lemma handleSelect_frames {js : Builtins} profile c k :
  residual (handleSelect profile) (Await c k) -> select_frame profile c k.
Proof.
  unfold handleSelect. intros H.
  inversion H as [| ? ? ? H1 |]; subst; clear H.
  destruct (get profile "handle") as [handle|] eqn:Hget; [|inversion H1].
  inversion H1 as [| | ? ? net bl ? Hbl H2]; subst; clear H1.
  - by apply awaiting_blocklist.
  - inversion H2 as [| ? ? ? H3 |]; subst.
    inversion H3 as [| ? ? ? H4 |]; subst.
    inversion H4 as [| ? ? ? H5 |]; subst. inversion H5.
Qed.

Lemma no_frames_handleClickOutside {js : Builtins} target c k :
  ~ residual (handleClickOutside searchRef_current target) (Await c k).
Proof.
  destruct target; simpl; intros H; inversion H as [| ? ? ? H1 |]; subst.
  inversion H1.
Qed.

Lemma no_frames_onChange {js : Builtins} text c k :
  ~ residual (onChange text) (Await c k).
Proof.
  intros H. inversion H as [| ? ? ? H1 |]; subst. inversion H1.
Qed.

(** The frames of a reachable state, by the handler they began as. *)
Lemma frame_cases {js : Builtins} (f : frame) :
  frame_ok f ->
  (exists query,
     origin f = SearchForProfile query
     /\ (3 <= String.length query)%nat
     /\ search_frame query (waiting_on f) (resume f))
  \/ (exists profile,
        origin f = HandleSelect profile
        /\ select_frame profile (waiting_on f) (resume f)).
Proof.
  unfold frame_ok. destruct (origin f) as [query|profile|target|text] eqn:Ho;
    simpl; intros H.
  - left. exists query. split; [done|]. by apply searchForProfile_frames.
  - right. exists profile. split; [done|]. by apply handleSelect_frames.
  - by apply no_frames_handleClickOutside in H.
  - by apply no_frames_onChange in H.
Qed.

(** ** The transitions of the controller *)

Lemma ui_run_set {js : Builtins} o u k a :
  ui (run o (Set_ u k) a) = ui (run o k (with_ui (apply_setter u) a)).
Proof. reflexivity. Qed.

Lemma step_ui_change {js : Builtins} a e :
  reachable a -> ui_change a e (ui (step e a)).
Proof.
  intros Hreach. unfold step. rewrite ui_useDebounce.
  destruct e as [text| | |target|i net]; unfold dispatch.
  - apply change_query.
  - destruct (timer a) eqn:Ht; [|by apply change_no_timer].
    unfold start, searchForProfile.
    destruct (Z.ltb_spec (Z.of_nat (String.length (query (ui a)))) 3).
    + apply change_search_short; [done|lia].
    + apply change_search_begun; [done|lia].
  - destruct (truthy (searchProfile (ui a))) eqn:Ht; [|by apply change_no_row].
    unfold start, handleSelect. rewrite ui_run_set.
    destruct (get _ "handle"); simpl; by apply change_selected.
  - destruct target; simpl; [apply change_inside|apply change_dismissed].
  - destruct (suspended a !! i) as [f|] eqn:Hf; [|by apply change_no_frame].
    pose proof (reachable_frames_ok a Hreach) as Hall.
    eapply Forall_lookup_1 in Hall; [|exact Hf].
    destruct (perform_total net (waiting_on f)) as [v Hv]. rewrite Hv.
    destruct (frame_cases f Hall)
      as [(query & Ho & Hlen & Hframe)|(profile & Ho & Hframe)];
      destruct f as [o c k]; simpl in Ho, Hframe, Hv; simpl origin; simpl resume;
      subst o.
    + destruct Hframe as [|net0 did Hdid Htruthy].
      * simpl in Hv.
        destruct (getDidFromHandle_null_or_truthy _ _ _ Hv)
          as [[-> Hfalse]|[Hnn Htrue]].
        -- simpl. eapply change_unresolved; eauto.
        -- rewrite Htrue. simpl. eapply change_resolved; eauto.
      * simpl in Hv. simpl. eapply change_candidate; eauto.
        intros ->. discriminate.
    + destruct Hframe as [handle Hget]. simpl in Hv. simpl.
      eapply change_blocklist; eauto.
Qed.

(** ** The history of a run *)

Lemma called_useDebounce {js : Builtins} a a' :
  called (useDebounce a a') = called a'.
Proof. unfold useDebounce. by destruct (String.eqb _ _). Qed.

Lemma truthy_not_null v : truthy v = true -> v <> VNull.
Proof. by intros Ht ->. Qed.

Lemma steps_snoc {js : Builtins} es e a :
  steps (es ++ [e])%list a = step e (steps es a).
Proof. unfold steps. by rewrite fold_left_app. Qed.

Lemma reachable_after {js : Builtins} es : reachable (steps es mounted).
Proof. apply reachable_steps, reachable_mounted. Qed.

Lemma reachable_is_after {js : Builtins} a :
  reachable a -> exists es, a = steps es mounted.
Proof.
  induction 1 as [|e a _ [es ->]]; [by exists []|].
  exists (es ++ [e])%list. by rewrite steps_snoc.
Qed.

Lemma begun_snoc {js : Builtins} es e text :
  begun es text -> begun (es ++ [e])%list text.
Proof.
  intros (es1 & es2 & -> & H). exists es1, (es2 ++ [e])%list.
  split; [|done]. by rewrite <- app_assoc.
Qed.

Lemma settled_snoc {js : Builtins} es e o c net :
  settled es o c net -> settled (es ++ [e])%list o c net.
Proof.
  intros (es1 & es2 & i & f & -> & H). exists es1, (es2 ++ [e])%list, i, f.
  split; [|done]. by rewrite <- app_assoc.
Qed.

Lemma resolved_snoc {js : Builtins} es e text did :
  resolved es text did -> resolved (es ++ [e])%list text did.
Proof.
  intros (Hb & net & Hs & Hdid). split; [by apply begun_snoc|].
  exists net. split; [by apply settled_snoc|done].
Qed.

Lemma fetched_snoc {js : Builtins} es e profile :
  fetched es profile -> fetched (es ++ [e])%list profile.
Proof.
  intros (text & did & net & Hr & Ht & Hs & Hp). exists text, did, net.
  split; [by apply resolved_snoc|]. split; [done|].
  split; [by apply settled_snoc|done].
Qed.

Lemma listed_snoc {js : Builtins} es e blocklistData :
  listed es blocklistData -> listed (es ++ [e])%list blocklistData.
Proof.
  intros (profile & handle & net & Ht & Hf & Hget & Hs & Hbl).
  exists profile, handle, net. split; [done|].
  split; [by apply fetched_snoc|]. split; [done|].
  split; [by apply settled_snoc|done].
Qed.

Lemma frame_history_snoc {js : Builtins} es e f :
  frame_history es f -> frame_history (es ++ [e])%list f.
Proof.
  unfold frame_history. destruct (origin f) as [text|profile| |]; try done.
  - intros [Hb Hd]. split; [by apply begun_snoc|].
    intros did Hw. destruct (Hd did Hw) as [Ht Hr].
    split; [done|by apply resolved_snoc].
  - intros [Ht Hf]. split; [done|by apply fetched_snoc].
Qed.

Lemma guarded_snoc {js : Builtins} es e c :
  guarded es c -> guarded (es ++ [e])%list c.
Proof.
  destruct c as [handle|did|handle]; simpl.
  - apply begun_snoc.
  - intros [Ht [text Hr]]. split; [done|]. exists text. by apply resolved_snoc.
  - intros (profile & Ht & Hf & Hget). exists profile.
    split; [done|]. split; [by apply fetched_snoc|done].
Qed.

Lemma settled_now {js : Builtins} es i net f :
  suspended (steps es mounted) !! i = Some f ->
  settled (es ++ [Settle i net])%list (origin f) (waiting_on f) net.
Proof. intros Hf. by exists es, [], i, f. Qed.

Lemma begun_now {js : Builtins} es :
  timer (steps es mounted) = true ->
  (3 <= String.length (query (ui (steps es mounted))))%nat ->
  begun (es ++ [DebounceElapsed])%list (query (ui (steps es mounted))).
Proof. intros Ht Hlen. by exists es, []. Qed.

Lemma step_log_change {js : Builtins} a e :
  reachable a -> log_change a e (suspended (step e a)) (called (step e a)).
Proof.
  intros Hreach. unfold step. rewrite suspended_useDebounce, called_useDebounce.
  destruct e as [text| | |target|i net]; unfold dispatch.
  - exact (log_unchanged a (Change text)).
  - destruct (timer a) eqn:Ht; [|apply log_unchanged].
    cbv zeta. cbn [start]. unfold searchForProfile.
    destruct (Z.ltb_spec (Z.of_nat (String.length (query (ui a)))) 3).
    + exact (log_unchanged a DebounceElapsed).
    + simpl. apply log_begun; [done|lia|done|done].
  - destruct (truthy (searchProfile (ui a))) eqn:Ht; [|apply log_unchanged].
    destruct (get_truthy _ "handle" Ht) as [handle Hget].
    cbv zeta. cbn [start]. unfold handleSelect. rewrite Hget. simpl.
    by eapply log_selected.
  - destruct target;
      [exact (log_unchanged a (MouseDown WithinSearch))
      |exact (log_unchanged a (MouseDown Elsewhere))].
  - destruct (suspended a !! i) as [f|] eqn:Hf; [|apply log_unchanged].
    pose proof (reachable_frames_ok a Hreach) as Hall.
    eapply Forall_lookup_1 in Hall; [|exact Hf].
    destruct (perform_total net (waiting_on f)) as [v Hv]. rewrite Hv.
    destruct (frame_cases f Hall)
      as [(text & Ho & Hlen & Hframe)|(profile & Ho & Hframe)].
    + destruct f as [o c k]. simpl in Ho, Hframe, Hv |- *. subst o.
      destruct Hframe as [|net0 did Hdid Htruthy]; simpl in Hv.
      * destruct (truthy v) eqn:Htv; simpl.
        -- by eapply log_resolved.
        -- by eapply log_settled.
      * simpl. by eapply log_settled.
    + destruct f as [o c k]. simpl in Ho, Hframe |- *. subst o.
      destruct Hframe as [handle Hget]. simpl. by eapply log_settled.
Qed.

Lemma history_frames_calls {js : Builtins} es e :
  history_ok es ->
  Forall (frame_history (es ++ [e])) (suspended (step e (steps es mounted)))
  /\ Forall (guarded (es ++ [e])) (called (step e (steps es mounted))).
Proof.
  intros (HF & HK & HC & _ & _).
  assert (HF' : Forall (frame_history (es ++ [e])) (suspended (steps es mounted))).
  { eapply Forall_impl; [exact HF|]. intros f. apply frame_history_snoc. }
  assert (HK' : Forall (guarded (es ++ [e])) (called (steps es mounted))).
  { eapply Forall_impl; [exact HK|]. intros c. apply guarded_snoc. }
  pose proof (step_log_change (steps es mounted) e (reachable_after es)) as Hlog.
  destruct Hlog
    as [e|f Ht Hlen Ho Hw|handle f Ht Hget Ho Hw
        |i net f0 text did f Hf0 Ho0 Hw0 Hdid Htd Ho Hw|i net f0 Hf0].
  - done.
  - assert (Hb : begun (es ++ [DebounceElapsed]) (query (ui (steps es mounted))))
      by (by apply begun_now).
    split; apply Forall_app; (split; [done|]); apply Forall_singleton.
    + unfold frame_history. rewrite Ho. split; [done|].
      intros did Hd. congruence.
    + exact Hb.
  - assert (Hfetched : fetched (es ++ [ClickRow]) (searchProfile (ui (steps es mounted)))).
    { apply fetched_snoc, HC. by apply truthy_not_null. }
    split; apply Forall_app; (split; [done|]); apply Forall_singleton.
    + unfold frame_history. by rewrite Ho.
    + simpl. exists (searchProfile (ui (steps es mounted))). by repeat split.
  - pose proof (Forall_lookup_1 _ _ _ _ HF Hf0) as Hh.
    unfold frame_history in Hh. rewrite Ho0 in Hh. destruct Hh as [Hb _].
    assert (Hr : resolved (es ++ [Settle i net]) text did).
    { split; [by apply begun_snoc|]. exists net. split; [|done].
      rewrite <- Ho0, <- Hw0. by apply settled_now. }
    split; apply Forall_app; split.
    + by apply Forall_delete.
    + apply Forall_singleton. unfold frame_history. rewrite Ho.
      split; [by apply begun_snoc|].
      intros did' Hd. rewrite Hw in Hd. injection Hd as <-. by split.
    + done.
    + apply Forall_singleton. simpl. split; [done|]. by exists text.
  - split; [by apply Forall_delete|done].
Qed.

Lemma history_state {js : Builtins} es e :
  history_ok es ->
  let a' := step e (steps es mounted) in
  (searchProfile (ui a') <> VNull -> fetched (es ++ [e]) (searchProfile (ui a')))
  /\ (selectedProfile (ui a') <> VNull ->
      truthy (selectedProfile (ui a')) = true
      /\ fetched (es ++ [e]) (selectedProfile (ui a')))
  /\ (blocklist (ui a') = VArr [] \/ listed (es ++ [e]) (blocklist (ui a'))).
Proof.
  intros (HF & _ & HC & HS & HB). cbv zeta.
  assert (HC' : searchProfile (ui (steps es mounted)) <> VNull ->
                fetched (es ++ [e]) (searchProfile (ui (steps es mounted))))
    by (intros H; by apply fetched_snoc, HC).
  assert (HS' : selectedProfile (ui (steps es mounted)) <> VNull ->
                truthy (selectedProfile (ui (steps es mounted))) = true
                /\ fetched (es ++ [e]) (selectedProfile (ui (steps es mounted)))).
  { intros H. destruct (HS H). split; [done|by apply fetched_snoc]. }
  assert (HB' : blocklist (ui (steps es mounted)) = VArr []
                \/ listed (es ++ [e]) (blocklist (ui (steps es mounted)))).
  { destruct HB as [?|?]; [by left|right; by apply listed_snoc]. }
  pose proof (step_ui_change (steps es mounted) e (reachable_after es)) as Hch.
  remember (ui (step e (steps es mounted))) as s' eqn:Hs. clear Hs.
  destruct Hch
    as [| | | | | | | | | | |i net f text net0 did pd Hf Ho Hlen Hdid Hnn Hw Hp
        |i net f profile handle bl Hf Ho Hget Hw Hbl];
    simpl; try done.
  - (* the row is clicked *)
    split; [done|]. split; [|done]. intros _. split; [done|].
    apply HC'. by apply truthy_not_null.
  - (* a profile arrives *)
    split; [|done]. intros _.
    pose proof (Forall_lookup_1 _ _ _ _ HF Hf) as Hh.
    unfold frame_history in Hh. rewrite Ho in Hh.
    destruct Hh as [_ Hd]. destruct (Hd did Hw) as [Htd Hr].
    exists text, did, net. split; [by apply resolved_snoc|]. split; [done|].
    split; [|done]. rewrite <- Ho, <- Hw. by apply settled_now.
  - (* a blocklist arrives *)
    split; [done|]. split; [done|]. right.
    pose proof (Forall_lookup_1 _ _ _ _ HF Hf) as Hh.
    unfold frame_history in Hh. rewrite Ho in Hh. destruct Hh as [Htp Hfp].
    exists profile, handle, net. split; [done|].
    split; [by apply fetched_snoc|]. split; [done|]. split; [|done].
    rewrite <- Ho, <- Hw. by apply settled_now.
Qed.

(** What the state holds and what was called go back to events of the
    run. *)
Lemma history_ok_all {js : Builtins} es : history_ok es.
Proof.
  induction es as [|e es IH] using rev_ind.
  - unfold history_ok. simpl. repeat split; try done. left. reflexivity.
  - destruct (history_frames_calls es e IH) as [HF HK].
    destruct (history_state es e IH) as (HC & HS & HB).
    unfold history_ok. cbv zeta. rewrite steps_snoc.
    split; [exact HF|]. split; [exact HK|]. split; [exact HC|].
    split; [exact HS|exact HB].
Qed.

(** C4, as amended: in the state a run of events leads to, a candidate
    that is not [null] is what [getProfileByDid] returned, at an event of
    the run, to a resolution that was begun for a query of length 3 or
    more when a quiet period ended, for a truthy identifier that
    [getDidFromHandle] had returned to a resolution begun for that query.
    An event gives the candidate a new non-null value only by settling
    such a profile fetch, and settling a profile fetch stores what it
    returned.  The candidate is [null] after the quiet period ends on a
    query shorter than 3, after a pointer-down outside the search region,
    and after the blocklist fetch of a selection settles.  An edit of the
    query leaves the candidate as it is. *)
Theorem candidate_changes {js : Builtins} (es : list event) (e : event) :
  let a := steps es mounted in
  let before := searchProfile (ui a) in
  let after := searchProfile (ui (step e a)) in
  (before <> VNull -> fetched es before)
  /\ (after <> VNull -> after <> before ->
      exists i net f text did,
        e = Settle i net
        /\ suspended a !! i = Some f
        /\ origin f = SearchForProfile text
        /\ (3 <= String.length text)%nat
        /\ resolved es text did
        /\ truthy did = true
        /\ waiting_on f = GetProfileByDid did
        /\ API.getProfileByDid net did = Normal after)
  /\ (forall i net f text did,
        e = Settle i net -> suspended a !! i = Some f ->
        origin f = SearchForProfile text ->
        waiting_on f = GetProfileByDid did ->
        API.getProfileByDid net did = Normal after)
  /\ (e = DebounceElapsed -> timer a = true ->
      (String.length (query (ui a)) < 3)%nat -> after = VNull)
  /\ (e = MouseDown Elsewhere -> after = VNull)
  /\ (forall i net f profile,
        e = Settle i net -> suspended a !! i = Some f ->
        origin f = HandleSelect profile -> after = VNull)
  /\ (forall text, e = Change text -> after = before).
Proof.
  cbv zeta.
  destruct (history_ok_all es) as (HF & _ & HC & _ & _).
  split; [exact HC|].
  pose proof (step_ui_change (steps es mounted) e (reachable_after es)) as Hch.
  remember (ui (step e (steps es mounted))) as s' eqn:Hs. clear Hs.
  destruct Hch
    as [| | | | | | | | | | |i net f text net0 did pd Hf Ho Hlen Hdid Hnn Hw Hp|];
    simpl; repeat split; intros; simplify_eq;
    try done; try lia; try congruence.
  pose proof (Forall_lookup_1 _ _ _ _ HF Hf) as Hh.
  unfold frame_history in Hh. rewrite Ho in Hh.
  destruct Hh as [_ Hd]. destruct (Hd did Hw) as [Htd Hr].
  exists i, net, f, text, did. by split_and!.
Qed.

Lemma candidate_changes_witness :
  searchProfile (ui found_alice) <> VNull
  /\ searchProfile (ui found_alice) <> searchProfile (ui resolving_alice)
  /\ exists i net f text did,
       Settle 0 net_profile = Settle i net
       /\ suspended resolving_alice !! i = Some f
       /\ origin f = SearchForProfile text
       /\ (3 <= String.length text)%nat
       /\ resolved (js := plain_builtins)
            [Change "alice"; DebounceElapsed; Settle 0 net_did] text did
       /\ truthy did = true
       /\ waiting_on f = GetProfileByDid did
       /\ API.getProfileByDid (js := plain_builtins) net did
          = Normal (searchProfile (ui found_alice)).
Proof.
  split; [discriminate|]. split; [discriminate|].
  apply (proj1 (proj2 (candidate_changes (js := plain_builtins)
                         [Change "alice"; DebounceElapsed; Settle 0 net_did]
                         (Settle 0 net_profile))));
    discriminate.
Defined.

Lemma reachable_resolving_alice : reachable (js := plain_builtins) resolving_alice.
Proof. apply reachable_steps, reachable_mounted. Qed.

Lemma reachable_found_alice : reachable (js := plain_builtins) found_alice.
Proof. apply reachable_step, reachable_resolving_alice. Qed.

Lemma reachable_selecting_alice : reachable (js := plain_builtins) selecting_alice.
Proof. apply reachable_step, reachable_found_alice. Qed.

Lemma reachable_selected_alice : reachable (js := plain_builtins) selected_alice.
Proof. apply reachable_step, reachable_selecting_alice. Qed.

(** C4 as stated fails: the answers to a resolution begun for "alice"
    arrive after the query has become "al" and the quiet period has
    passed; the state reached has a query of length 2, alice as the
    candidate, no timer running and no handler suspended. *)
Lemma stale_resolution_shows_candidate :
  reachable (js := plain_builtins) stale_resolution
  /\ query (ui stale_resolution) = "al"
  /\ (String.length (query (ui stale_resolution)) < 3)%nat
  /\ searchProfile (ui stale_resolution) = alice
  /\ searchProfile (ui stale_resolution) <> VNull
  /\ timer stale_resolution = false
  /\ suspended stale_resolution = []
  /\ ~ (forall (js : Builtins) a,
          reachable a -> searchProfile (ui a) <> VNull ->
          (3 <= String.length (query (ui a)))%nat).
Proof.
  assert (Hreach : reachable (js := plain_builtins) stale_resolution)
    by apply reachable_steps, reachable_mounted.
  split; [exact Hreach|].
  split; [reflexivity|]. split; [simpl; lia|]. split; [reflexivity|].
  split; [discriminate|]. split; [reflexivity|]. split; [reflexivity|].
  intros H. specialize (H plain_builtins stale_resolution Hreach).
  simpl in H. assert (alice <> VNull) as Hnn by discriminate.
  specialize (H Hnn). lia.
Qed.

(** C5, as amended: in a reachable state the selected profile changes
    only when the row is clicked, becoming the candidate, and that step
    leaves the blocklist as it is; the blocklist changes only when the
    blocklist fetch of a selection settles, becoming what
    [getBlocklist] returned for the handle of the profile selected then,
    and that step leaves the selected profile as it is.  Every click on
    the row suspends such a selection, and every selection that settles
    stores its blocklist. *)
Theorem selection_and_blocklist_changes {js : Builtins} (a : app) (e : event) :
  reachable a ->
  let s := ui a in
  let s' := ui (step e a) in
  (selectedProfile s' <> selectedProfile s ->
   e = ClickRow
   /\ truthy (searchProfile s) = true
   /\ selectedProfile s' = searchProfile s
   /\ blocklist s' = blocklist s)
  /\ (blocklist s' <> blocklist s ->
      exists i net f profile handle,
        e = Settle i net
        /\ suspended a !! i = Some f
        /\ origin f = HandleSelect profile
        /\ get profile "handle" = Normal handle
        /\ waiting_on f = GetBlocklist handle
        /\ API.getBlocklist net handle = Normal (blocklist s')
        /\ selectedProfile s' = selectedProfile s)
  /\ (e = ClickRow -> truthy (searchProfile s) = true ->
      selectedProfile s' = searchProfile s
      /\ exists handle f,
           get (searchProfile s) "handle" = Normal handle
           /\ suspended (step e a) = (suspended a ++ [f])%list
           /\ origin f = HandleSelect (searchProfile s)
           /\ waiting_on f = GetBlocklist handle)
  /\ (forall i net f profile,
        e = Settle i net -> suspended a !! i = Some f ->
        origin f = HandleSelect profile ->
        exists handle,
          get profile "handle" = Normal handle
          /\ API.getBlocklist net handle = Normal (blocklist s')).
Proof.
  intros Hreach. cbv zeta.
  pose proof (step_ui_change a e Hreach) as Hch.
  split; [|split; [|split]].
  - remember (ui (step e a)) as s' eqn:Hs. clear Hs.
    destruct Hch; simpl; intros; simplify_eq; done.
  - remember (ui (step e a)) as s' eqn:Hs. clear Hs.
    destruct Hch; simpl; intros; simplify_eq; try done.
    exists i, net, f, profile, handle. by repeat split.
  - intros -> Ht. split.
    + remember (ui (step ClickRow a)) as s' eqn:Hs. clear Hs.
      inversion Hch; subst; [congruence|done].
    + destruct (get_truthy _ "handle" Ht) as [handle Hget].
      unfold step. rewrite suspended_useDebounce.
      unfold dispatch. rewrite Ht. unfold start, handleSelect.
      rewrite Hget. simpl. eauto 10.
  - remember (ui (step e a)) as s' eqn:Hs. clear Hs.
    destruct Hch; simpl; intros; simplify_eq; try congruence.
    exists handle. split; [congruence|done].
Qed.

Lemma selection_and_blocklist_changes_witness :
  reachable (js := plain_builtins) found_alice
  /\ selectedProfile (ui selecting_alice) <> selectedProfile (ui found_alice)
  /\ truthy (searchProfile (ui found_alice)) = true
  /\ selectedProfile (ui selecting_alice) = searchProfile (ui found_alice)
  /\ blocklist (ui selecting_alice) = blocklist (ui found_alice).
Proof.
  split; [exact reachable_found_alice|]. split; [discriminate|].
  split; [reflexivity|].
  apply (selection_and_blocklist_changes (js := plain_builtins) found_alice
           ClickRow reachable_found_alice).
  discriminate.
Defined.

(** C5 as stated fails: the click on the row changes the selected profile
    and leaves the blocklist as it was; the blocklist changes only later,
    when the fetch settles.  Between the two the page can show the panel
    of one profile with the blocklist of another. *)
Lemma selection_and_blocklist_change_apart :
  reachable (js := plain_builtins) found_alice
  /\ selectedProfile (ui found_alice) = VNull
  /\ blocklist (ui found_alice) = VArr []
  /\ selectedProfile (ui (step (js := plain_builtins) ClickRow found_alice))
     = alice
  /\ blocklist (ui (step (js := plain_builtins) ClickRow found_alice)) = VArr []
  /\ reachable (js := plain_builtins) selecting_carol
  /\ selectedProfile (ui selecting_carol) = carol
  /\ blocklist (ui selecting_carol) = VArr [bob_block]
  /\ panel_shown (js := plain_builtins) (ui selecting_carol) = true
  /\ ~ (forall (js : Builtins) a e,
          reachable a ->
          selectedProfile (ui (step e a)) <> selectedProfile (ui a) ->
          blocklist (ui (step e a)) <> blocklist (ui a)).
Proof.
  split; [exact reachable_found_alice|].
  do 4 (split; [reflexivity|]).
  split; [apply reachable_steps, reachable_selected_alice|].
  do 3 (split; [reflexivity|]).
  intros H.
  apply (H plain_builtins found_alice ClickRow reachable_found_alice);
    [discriminate|reflexivity].
Qed.

(** C7: a pointer-down outside the search region sets the candidate to
    [null] and leaves the selected profile and the blocklist (and the rest
    of the state) as they are, in every state, so in every state in which
    a candidate is shown. *)
Theorem dismiss_clears_candidate {js : Builtins} (a : app) :
  let a' := step (MouseDown Elsewhere) a in
  searchProfile (ui a') = VNull
  /\ selectedProfile (ui a') = selectedProfile (ui a)
  /\ blocklist (ui a') = blocklist (ui a)
  /\ a' = with_ui (setSearchProfile VNull) a.
Proof.
  cbv zeta. unfold step, dispatch. simpl. unfold useDebounce. simpl.
  rewrite String.eqb_refl. by repeat split.
Qed.

(** ** What is rendered *)

Lemma gt_zero_length {js : Builtins} (items : list value) :
  gt_zero (VNum (Z.of_nat (List.length items))) = true <-> items <> [].
Proof.
  unfold gt_zero. simpl. destruct items as [|x items]; simpl.
  - split; [discriminate|done].
  - split; [done|]. intros _. apply Z.ltb_lt. lia.
Qed.

Lemma existsb_is_panel_falsy_child {js : Builtins} v :
  existsb is_panel (falsy_child v) = false.
Proof. by destruct v. Qed.

Lemma panel_shown_eq {js : Builtins} s items :
  blocklist s = VArr items ->
  panel_shown s
  = truthy (selectedProfile s) && gt_zero (VNum (Z.of_nat (List.length items))).
Proof.
  intros Hbl. unfold panel_shown, BlocklistApp. rewrite Hbl.
  destruct (truthy (selectedProfile s)) eqn:Ht; simpl.
  - rewrite existsb_app. destruct (gt_zero _); simpl.
    + rewrite orb_true_r.
      destruct (truthy (searchProfile s)); reflexivity.
    + rewrite orb_false_r.
      destruct (truthy (searchProfile s)); simpl;
        [reflexivity|apply existsb_is_panel_falsy_child].
  - rewrite existsb_app, !existsb_is_panel_falsy_child, orb_false_r.
    destruct (truthy (searchProfile s)); simpl;
      [reflexivity|apply existsb_is_panel_falsy_child].
Qed.

(** C6: in a state typed as the component declares it, the selected
    profile [null] or a profile (an object, so truthy) and the blocklist
    an array, the blocklist panel is rendered exactly when the selected
    profile is not [null] and the array is not empty; and after a
    selection whose blocklist fetch returned the empty array no panel is
    rendered. *)
Theorem panel_shown_iff {js : Builtins} :
  (forall s items,
     blocklist s = VArr items ->
     (selectedProfile s = VNull \/ truthy (selectedProfile s) = true) ->
     (panel_shown s = true <-> selectedProfile s <> VNull /\ items <> []))
  /\ (forall s profile handle net rest,
        get profile "handle" = Normal handle ->
        API.getBlocklist net handle = Normal (VArr []) ->
        panel_shown (final (exec (handleSelect profile) (net :: rest) s)) = false).
Proof.
  split.
  - intros s items Hbl Hsel. rewrite (panel_shown_eq s items Hbl).
    rewrite andb_true_iff, gt_zero_length.
    destruct Hsel as [->|Ht].
    + simpl. split; [by intros [? ?]|by intros [? ?]].
    + rewrite Ht. split; intros [_ ?]; split; try done.
      intros Hn. rewrite Hn in Ht. discriminate.
  - intros s profile handle net rest Hget Hbl.
    rewrite (exec_handleSelect _ _ _ _ _ _ Hget Hbl). simpl.
    erewrite (panel_shown_eq _ []); [|reflexivity]. simpl. apply andb_false_r.
Qed.

Lemma panel_shown_iff_witness :
  blocklist (ui selected_alice) = VArr [bob_block]
  /\ truthy (selectedProfile (ui selected_alice)) = true
  /\ (panel_shown (js := plain_builtins) (ui selected_alice) = true
      <-> selectedProfile (ui selected_alice) <> VNull /\ [bob_block] <> [])
  /\ get alice "handle" = Normal (VStr "alice")
  /\ API.getBlocklist (js := plain_builtins) net_no_blocks (VStr "alice")
     = Normal (VArr [])
  /\ panel_shown (js := plain_builtins)
       (final (exec (js := plain_builtins) (handleSelect alice) [net_no_blocks]
                 (ui found_alice))) = false.
Proof.
  split; [reflexivity|]. split; [reflexivity|].
  split; [|split; [reflexivity|split; [reflexivity|]]].
  - apply (proj1 (panel_shown_iff (js := plain_builtins))
             (ui selected_alice) [bob_block]).
    + reflexivity.
    + right. reflexivity.
  - apply (proj2 (panel_shown_iff (js := plain_builtins))
             (ui found_alice) alice (VStr "alice") net_no_blocks []);
      reflexivity.
Defined.

Lemma gt_zero_not_zero {js : Builtins} len :
  gt_zero len = true -> strict_eq_zero len = false.
Proof.
  destruct len; simpl; try done.
  unfold gt_zero. simpl. intros H%Z.ltb_lt. apply Z.eqb_neq. lia.
Qed.

(** The props with which the panel is rendered, in any state. *)
Lemma rendered_panel {js : Builtins} s els sp bl :
  BlocklistApp s = Normal els ->
  In (EBlocklistView sp bl) els ->
  sp = selectedProfile s /\ bl = blocklist s
  /\ truthy sp = true
  /\ exists len, get bl "length" = Normal len /\ gt_zero len = true.
Proof.
  unfold BlocklistApp. intros Hr Hin.
  assert (Hdrop : forall v,
    ~ In (EBlocklistView sp bl)
        (if truthy v then [ESearchResult v] else falsy_child v)).
  { intros v. destruct (truthy v); simpl; [intuition discriminate|].
    destruct v; simpl; intuition discriminate. }
  destruct (truthy (selectedProfile s)) eqn:Ht; simpl in Hr.
  - destruct (get (blocklist s) "length") as [len|] eqn:Hlen; simpl in Hr;
      [|discriminate].
    injection Hr as <-. apply in_inv in Hin as [Hin|Hin]; [discriminate|].
    apply in_app_or in Hin as [Hin|Hin]; [by apply Hdrop in Hin|].
    destruct (gt_zero len) eqn:Hgt; [|done].
    apply in_inv in Hin as [[= <- <-]|[]]. eauto 10.
  - injection Hr as <-. apply in_inv in Hin as [Hin|Hin]; [discriminate|].
    apply in_app_or in Hin as [Hin|Hin]; [by apply Hdrop in Hin|].
    destruct (selectedProfile s); simpl in Hin; try done.
    by destruct Hin as [|].
Qed.

(** C10: in a reachable state in which the blocklist panel is rendered,
    the blocklist it is given is not the empty array, and the panel does
    not show the empty-state message. *)
Theorem empty_message_unreachable {js : Builtins}
    (a : app) (els : list element) (sp bl : value) :
  reachable a ->
  BlocklistApp (ui a) = Normal els ->
  In (EBlocklistView sp bl) els ->
  bl <> VArr []
  /\ forall p text, BlocklistView sp bl = Normal p -> content p <> EmptyMessage text.
Proof.
  intros _ Hr Hin.
  destruct (rendered_panel _ _ _ _ Hr Hin) as (_ & _ & _ & len & Hlen & Hgt).
  split.
  - intros ->. simpl in Hlen. injection Hlen as <-. discriminate.
  - intros p text. unfold BlocklistView.
    destruct (get sp "avatar"); simpl; [|discriminate].
    destruct (get sp "handle"); simpl; [|discriminate].
    destruct (get sp "displayName"); simpl; [|discriminate].
    rewrite Hlen. simpl. rewrite (gt_zero_not_zero _ Hgt).
    destruct (map_blocks bl); simpl; [|discriminate].
    intros [= <-]. simpl. discriminate.
Qed.

Lemma empty_message_unreachable_witness :
  reachable (js := plain_builtins) selected_alice
  /\ BlocklistApp (js := plain_builtins) (ui selected_alice)
     = Normal [EInput ""; EBlocklistView alice (VArr [bob_block])]
  /\ In (EBlocklistView alice (VArr [bob_block]))
       [EInput ""; EBlocklistView alice (VArr [bob_block])]
  /\ VArr [bob_block] <> VArr []
  /\ forall p text,
       BlocklistView (js := plain_builtins) alice (VArr [bob_block]) = Normal p ->
       content p <> EmptyMessage text.
Proof.
  split; [exact reachable_selected_alice|]. split; [reflexivity|].
  split; [right; left; reflexivity|].
  apply (empty_message_unreachable (js := plain_builtins) selected_alice
           [EInput ""; EBlocklistView alice (VArr [bob_block])]
           alice (VArr [bob_block]) reachable_selected_alice).
  - reflexivity.
  - right; left; reflexivity.
Defined.

(** ** Invariants of the mounted component *)

(** The log of calls only grows. *)
Lemma called_run {js : Builtins} o p a :
  exists l, called (run o p a) = (called a ++ l)%list.
Proof.
  revert a. induction p as [|e|u k IH|c k _]; intros a; simpl.
  - exists []. by rewrite app_nil_r.
  - exists []. by rewrite app_nil_r.
  - apply (IH (with_ui (apply_setter u) a)).
  - by exists [c].
Qed.

Lemma called_step {js : Builtins} e a :
  exists l, called (step e a) = (called a ++ l)%list.
Proof.
  assert (Hsame : exists l, called a = (called a ++ l)%list)
    by (exists []; by rewrite app_nil_r).
  unfold step. rewrite called_useDebounce.
  destruct e as [text| | |target|i net]; unfold dispatch.
  - apply called_run.
  - destruct (timer a); [|done]. apply (called_run _ _ (with_timer false a)).
  - destruct (truthy _); [|done]. apply called_run.
  - apply called_run.
  - destruct (suspended a !! i) as [f|]; [|done].
    destruct (perform net (waiting_on f)); [|done].
    apply (called_run _ _ (resumed i a)).
Qed.

Lemma called_steps {js : Builtins} es a c :
  In c (called a) -> In c (called (steps es a)).
Proof.
  revert a. induction es as [|e es IH]; intros a Hin; [done|].
  simpl. apply IH. destruct (called_step e a) as [l ->].
  apply in_or_app. by left.
Qed.

Lemma called_later {js : Builtins} es1 e es2 c :
  In c (called (step e (steps es1 mounted))) ->
  In c (called (steps (es1 ++ e :: es2) mounted)).
Proof.
  intros Hin. unfold steps at 1. rewrite fold_left_app. simpl.
  by apply called_steps.
Qed.

Lemma begun_called {js : Builtins} es text :
  begun es text -> In (GetDidFromHandle text) (called (steps es mounted)).
Proof.
  intros (es1 & es2 & -> & Ht & Hq & Hlen). apply called_later.
  unfold step. rewrite called_useDebounce. unfold dispatch. rewrite Ht.
  cbv zeta. cbn [start]. unfold searchForProfile. rewrite Hq.
  destruct (Z.ltb_spec (Z.of_nat (String.length text)) 3); [lia|].
  simpl. apply in_or_app. right. by left.
Qed.

Lemma resolved_called {js : Builtins} es text did :
  resolved es text did -> truthy did = true ->
  In (GetProfileByDid did) (called (steps es mounted)).
Proof.
  intros (_ & net & (es1 & es2 & i & f & -> & Hf & Ho & Hw) & Hdid) Ht.
  apply called_later.
  pose proof (reachable_frames_ok _ (reachable_after es1)) as Hall.
  eapply Forall_lookup_1 in Hall; [|exact Hf].
  unfold step. rewrite called_useDebounce. unfold dispatch. rewrite Hf.
  destruct (frame_cases f Hall)
    as [(text' & Ho' & _ & Hframe)|(profile & Ho' & _)]; [|congruence].
  destruct f as [o c k]. simpl in Ho, Hw, Ho', Hframe |- *.
  subst o c. injection Ho' as <-.
  inversion Hframe as [Hk|]; subst. simpl. rewrite Hdid, Ht. simpl.
  apply in_or_app. right. by left.
Qed.

(** X2: every call the component has made to the resolution client in
    the course of a run goes back to events of the run: an identifier
    was asked for a text only when a quiet period ended with the timer
    running and that text, of length 3 or more, as the query; a profile
    was asked only for a truthy identifier that [getDidFromHandle] had
    returned to a resolution begun for some such query; a blocklist was
    asked only for the handle of a truthy profile that [getProfileByDid]
    had returned to a resolution.  Conversely, every such end of a quiet
    period has its call to [getDidFromHandle] in the log, and every
    truthy identifier returned to a resolution has its call to
    [getProfileByDid] there. *)
Theorem calls_are_guarded {js : Builtins} (es : list event) :
  let a := steps es mounted in
  (forall handle,
     In (GetDidFromHandle handle) (called a) <-> begun es handle)
  /\ (forall did,
        In (GetProfileByDid did) (called a) <->
        truthy did = true /\ exists text, resolved es text did)
  /\ (forall handle,
        In (GetBlocklist handle) (called a) ->
        exists profile,
          truthy profile = true
          /\ fetched es profile
          /\ get profile "handle" = Normal handle).
Proof.
  cbv zeta. destruct (history_ok_all es) as (_ & HK & _).
  rewrite Forall_forall in HK.
  split_and!.
  - intros handle. split.
    + intros Hin. apply list_elem_of_In in Hin. exact (HK _ Hin).
    + apply begun_called.
  - intros did. split.
    + intros Hin. apply list_elem_of_In in Hin. exact (HK _ Hin).
    + intros [Ht [text Hr]]. by eapply resolved_called.
  - intros handle Hin. apply list_elem_of_In in Hin. exact (HK _ Hin).
Qed.

Lemma calls_are_guarded_witness :
  In (GetBlocklist (VStr "alice")) (called selected_alice)
  /\ exists profile,
       truthy profile = true
       /\ fetched (js := plain_builtins)
            [Change "alice"; DebounceElapsed; Settle 0 net_did;
             Settle 0 net_profile; ClickRow; Settle 0 net_blocklist] profile
       /\ get profile "handle" = Normal (VStr "alice").
Proof.
  assert (Hin : In (GetBlocklist (VStr "alice")) (called selected_alice))
    by (right; right; left; reflexivity).
  split; [exact Hin|].
  exact (proj2 (proj2 (calls_are_guarded (js := plain_builtins)
                         [Change "alice"; DebounceElapsed; Settle 0 net_did;
                          Settle 0 net_profile; ClickRow; Settle 0 net_blocklist]))
           (VStr "alice") Hin).
Defined.

(** X4: in the state a run of events leads to, the selected profile is
    [null] or a truthy value that [getProfileByDid] returned to a
    resolution at an event of the run, and the blocklist is the empty
    array or what [getBlocklist] returned at an event of the run to a
    selection of such a profile, called with the handle of that
    profile.  A click on the row of a shown candidate makes that
    candidate the selected profile. *)
Theorem selection_provenance {js : Builtins} (es : list event) :
  let a := steps es mounted in
  (selectedProfile (ui a) = VNull
   \/ truthy (selectedProfile (ui a)) = true
      /\ fetched es (selectedProfile (ui a)))
  /\ (blocklist (ui a) = VArr []
      \/ exists profile handle net,
           truthy profile = true
           /\ fetched es profile
           /\ get profile "handle" = Normal handle
           /\ settled es (HandleSelect profile) (GetBlocklist handle) net
           /\ API.getBlocklist net handle = Normal (blocklist (ui a)))
  /\ (truthy (searchProfile (ui a)) = true ->
      selectedProfile (ui (step ClickRow a)) = searchProfile (ui a)).
Proof.
  cbv zeta. destruct (history_ok_all es) as (_ & _ & _ & HS & HB).
  split_and!; [|exact HB|].
  - destruct (selectedProfile (ui (steps es mounted))) eqn:E;
      try (right; apply HS; discriminate).
    by left.
  - intros Ht. unfold step. rewrite ui_useDebounce. unfold dispatch.
    rewrite Ht. cbv zeta. cbn [start]. unfold handleSelect.
    rewrite ui_run_set. by destruct (get _ "handle").
Qed.

Lemma selection_provenance_witness :
  selectedProfile (ui selected_alice) <> VNull
  /\ blocklist (ui selected_alice) <> VArr []
  /\ fetched (js := plain_builtins)
       [Change "alice"; DebounceElapsed; Settle 0 net_did;
        Settle 0 net_profile; ClickRow; Settle 0 net_blocklist]
       (selectedProfile (ui selected_alice))
  /\ (exists profile handle net,
       truthy profile = true
       /\ fetched (js := plain_builtins)
            [Change "alice"; DebounceElapsed; Settle 0 net_did;
             Settle 0 net_profile; ClickRow; Settle 0 net_blocklist] profile
       /\ get profile "handle" = Normal handle
       /\ settled (js := plain_builtins)
            [Change "alice"; DebounceElapsed; Settle 0 net_did;
             Settle 0 net_profile; ClickRow; Settle 0 net_blocklist]
            (HandleSelect profile) (GetBlocklist handle) net
       /\ API.getBlocklist (js := plain_builtins) net handle
          = Normal (blocklist (ui selected_alice)))
  /\ truthy (searchProfile (ui found_alice)) = true
  /\ selectedProfile (ui selecting_alice) = alice.
Proof.
  split; [discriminate|]. split; [discriminate|].
  destruct (selection_provenance (js := plain_builtins)
              [Change "alice"; DebounceElapsed; Settle 0 net_did;
               Settle 0 net_profile; ClickRow; Settle 0 net_blocklist])
    as ([Hs|[_ Hs]] & [Hb|Hb] & _); try discriminate.
  split; [exact Hs|]. split; [exact Hb|]. split; [reflexivity|].
  exact (proj2 (proj2 (selection_provenance (js := plain_builtins)
                         [Change "alice"; DebounceElapsed; Settle 0 net_did;
                          Settle 0 net_profile])) eq_refl).
Defined.

Lemma Exists_delete_other {A} (P : A -> Prop) (l : list A) i x :
  Exists P l -> l !! i = Some x -> ~ P x -> Exists P (delete i l).
Proof.
  intros Hex. revert i. induction Hex as [y l Hy|y l Hex IH]; intros i Hi Hx.
  - destruct i as [|i]; simpl in *.
    + by simplify_eq.
    + by apply Exists_cons_hd.
  - destruct i as [|i]; simpl in *; [done|].
    apply Exists_cons_tl. by apply IH.
Qed.

(** X1: whenever the busy flag is set, a resolution is in flight: some
    handler that began as [searchForProfile] is suspended at an
    [await]. *)
Theorem busy_means_resolution_in_flight {js : Builtins} (a : app) :
  reachable a ->
  isSearching (ui a) = true ->
  Exists search_origin (suspended a).
Proof.
  induction 1 as [|e a Hreach IH]; [done|].
  unfold step. rewrite ui_useDebounce, suspended_useDebounce.
  destruct e as [text| | |target|i net]; unfold dispatch.
  - exact IH.
  - destruct (timer a); [|exact IH].
    cbn [start]. unfold searchForProfile.
    destruct (Z.of_nat (String.length (query (ui a))) <? 3); simpl; [exact IH|].
    intros _. apply Exists_app. right. constructor. by eexists.
  - destruct (truthy (searchProfile (ui a))); [|exact IH].
    cbn [start]. unfold handleSelect.
    destruct (get (searchProfile (ui a)) "handle"); simpl; intros Hb.
    + apply Exists_app. left. by apply IH.
    + by apply IH.
  - destruct target; exact IH.
  - destruct (suspended a !! i) as [f|] eqn:Hf; [|exact IH].
    pose proof (reachable_frames_ok a Hreach) as Hall.
    eapply Forall_lookup_1 in Hall; [|exact Hf].
    destruct (perform_total net (waiting_on f)) as [v Hv]. rewrite Hv.
    destruct (frame_cases f Hall)
      as [(query & Ho & Hlen & Hframe)|(profile & Ho & Hframe)].
    + destruct f as [o c k]. simpl in Ho, Hframe |- *. subst o.
      destruct Hframe as [|net0 did Hdid Htruthy].
      * destruct (truthy v); simpl; [|done].
        intros _. apply Exists_app. right. constructor. by eexists.
      * done.
    + assert (Hns : ~ search_origin f).
      { intros [query Hq]. congruence. }
      destruct f as [o c k]. simpl in Ho, Hframe. subst o.
      destruct Hframe as [handle Hget]. simpl. intros Hb.
      eapply Exists_delete_other; [by apply IH|exact Hf|exact Hns].
Qed.

Lemma busy_means_resolution_in_flight_witness :
  reachable (js := plain_builtins) resolving_alice
  /\ isSearching (ui resolving_alice) = true
  /\ Exists search_origin (suspended resolving_alice).
Proof.
  split; [exact reachable_resolving_alice|]. split; [reflexivity|].
  exact (busy_means_resolution_in_flight (js := plain_builtins) resolving_alice
           reachable_resolving_alice eq_refl).
Defined.

Lemma getBlocklist_array_or_truthy {js : Builtins} net handle v :
  API.getBlocklist net handle = Normal v -> v = VArr [] \/ truthy v = true.
Proof.
  unfold API.getBlocklist.
  destruct (fetch net _ _) as [r|]; simpl; [|intros [= <-]; auto].
  destruct (json r) as [data|]; simpl; [|intros [= <-]; auto].
  destruct (get data "data") as [inner|]; simpl; [|intros [= <-]; auto].
  destruct (get inner "blocklist") as [b|]; simpl; [|intros [= <-]; auto].
  intros [= <-]. unfold js_or. destruct (truthy b) eqn:E; auto.
Qed.

(** X3: in every reachable state the blocklist is neither [null] nor
    [undefined], so the read of [blocklist.length] in the render
    function and in [BlocklistView] yields a value and does not throw;
    and the selected profile is [null], for which no panel is rendered,
    or truthy, so that the reads of its members in [BlocklistView] do not
    throw either. *)
Theorem blocklist_length_readable {js : Builtins} (a : app) :
  reachable a ->
  blocklist (ui a) <> VNull
  /\ blocklist (ui a) <> VUndef
  /\ (exists len, get (blocklist (ui a)) "length" = Normal len)
  /\ (selectedProfile (ui a) = VNull
      \/ truthy (selectedProfile (ui a)) = true
         /\ forall key, exists v, get (selectedProfile (ui a)) key = Normal v).
Proof.
  intros Hreach. destruct (reachable_is_after a Hreach) as [es ->].
  destruct (history_ok_all es) as (_ & _ & _ & HS & HB).
  assert (Hb : blocklist (ui (steps es mounted)) = VArr []
               \/ truthy (blocklist (ui (steps es mounted))) = true).
  { destruct HB as [?|(profile & handle & net & _ & _ & _ & _ & Hbl)]; [by left|].
    by apply getBlocklist_array_or_truthy in Hbl. }
  split_and!.
  - destruct Hb as [E|E]; intros H; rewrite H in E; discriminate.
  - destruct Hb as [E|E]; intros H; rewrite H in E; discriminate.
  - destruct Hb as [->|Ht]; [by eexists|by apply get_truthy].
  - destruct (selectedProfile (ui (steps es mounted))) eqn:E;
      try (right; destruct HS as [Ht _]; [discriminate|]; split; [exact Ht|];
           intros key; by apply get_truthy).
    by left.
Qed.

Lemma blocklist_length_readable_witness :
  reachable (js := plain_builtins) selected_alice
  /\ get (blocklist (ui selected_alice)) "length" = Normal (VNum 1)
  /\ exists len, get (blocklist (ui selected_alice)) "length" = Normal len.
Proof.
  split; [exact reachable_selected_alice|]. split; [reflexivity|].
  apply (blocklist_length_readable (js := plain_builtins) selected_alice
           reachable_selected_alice).
Defined.

(** ** Further properties of the resolution client *)

(** X5: none of the three functions consults the status of the response:
    on two networks whose answers differ at most in the status, each
    returns the same result. *)
Theorem status_never_consulted {js : Builtins}
    (net net' : network) (handle : string) (did h : value) :
  (forall rq, same_body (net rq) (net' rq)) ->
  API.getDidFromHandle net handle = API.getDidFromHandle net' handle
  /\ API.getProfileByDid net did = API.getProfileByDid net' did
  /\ API.getBlocklist net h = API.getBlocklist net' h.
Proof.
  intros Hsame.
  assert (Hfetch : forall u hs,
    (let* response := fetch net u hs in json response)
    = (let* response := fetch net' u hs in json response)).
  { intros u hs. unfold fetch.
    specialize (Hsame {| url := u; headers := hs |}).
    destruct (net _) as [|r], (net' _) as [|r']; simpl in *; try done.
    unfold json. by rewrite Hsame. }
  unfold API.getDidFromHandle, API.getProfileByDid, API.getBlocklist.
  repeat split.
  - specialize (Hfetch (API.resolveHandle_url handle) API.static_headers).
    destruct (fetch net _ _), (fetch net' _ _); simpl in *; try done;
      try (by rewrite Hfetch); try (by rewrite <- Hfetch).
  - destruct (encodeURIComponent did) as [actor|]; simpl; [|done].
    specialize (Hfetch (API.getProfile_url actor) API.static_headers).
    destruct (fetch net _ _), (fetch net' _ _); simpl in *; try done;
      try (by rewrite Hfetch); try (by rewrite <- Hfetch).
  - specialize (Hfetch (API.blocklist_url (to_string h)) API.static_headers).
    destruct (fetch net _ _), (fetch net' _ _); simpl in *; try done;
      try (by rewrite Hfetch); try (by rewrite <- Hfetch).
Qed.

Lemma status_never_consulted_witness :
  (forall rq, same_body (net_profile_error rq) (respond 200 profile_not_found rq))
  /\ API.getProfileByDid (js := plain_builtins) net_profile_error
       (VStr "did:plc:alice")
     = API.getProfileByDid (js := plain_builtins) (respond 200 profile_not_found)
         (VStr "did:plc:alice").
Proof.
  assert (H : forall rq,
    same_body (net_profile_error rq) (respond 200 profile_not_found rq))
    by (intros rq; reflexivity).
  split; [exact H|].
  apply (status_never_consulted (js := plain_builtins) net_profile_error
           (respond 200 profile_not_found) "alice" (VStr "did:plc:alice")
           (VStr "alice") H).
Defined.

(** X12: what the functions return is safe to use as the component uses
    it: [getDidFromHandle] returns [null] or a truthy value, and
    [getBlocklist] returns the empty array or a truthy value, so reading
    [length] of its result never throws. *)
Theorem client_results_usable {js : Builtins}
    (net : network) (handle : string) (h : value) :
  (exists did,
     API.getDidFromHandle net handle = Normal did
     /\ (did = VNull \/ truthy did = true))
  /\ (exists blocklistData,
        API.getBlocklist net h = Normal blocklistData
        /\ (blocklistData = VArr [] \/ truthy blocklistData = true)
        /\ exists len, get blocklistData "length" = Normal len).
Proof.
  split.
  - destruct (getDidFromHandle_total net handle) as [did Hdid].
    exists did. split; [done|].
    destruct (getDidFromHandle_null_or_truthy _ _ _ Hdid) as [[? _]|[_ ?]]; auto.
  - destruct (getBlocklist_total net h) as [bl Hbl].
    exists bl. split; [done|].
    pose proof (getBlocklist_array_or_truthy _ _ _ Hbl) as Hcases.
    split; [done|].
    destruct Hcases as [->|Ht]; [by eexists|by apply get_truthy].
Qed.

(** ** Further properties of the handlers *)

(** X6: a resolution for a query of length 3 or more never ends in a
    rejection; it is pending exactly when the busy flag is left set; it
    is pending when no answer arrives and completed when two do. *)
Theorem searchForProfile_busy_while_pending {js : Builtins}
    (query : string) (nets : list network) (s : state) :
  (3 <= String.length query)%nat ->
  let t := exec (searchForProfile query) nets s in
  (forall e, ended t <> Rejected e)
  /\ (ended t = Pending \/ ended t = Completed)
  /\ (ended t = Pending <-> isSearching (final t) = true)
  /\ (nets = [] -> ended t = Pending)
  /\ ((2 <= List.length nets)%nat -> ended t = Completed).
Proof.
  intros Hlen. cbv zeta. unfold searchForProfile.
  destruct (Z.ltb_spec (Z.of_nat (String.length query)) 3); [lia|].
  destruct nets as [|net1 rest]; simpl.
  { repeat split; intros; try done; auto; simpl in *; lia. }
  destruct (getDidFromHandle_total net1 query) as [did ->].
  destruct (truthy did); simpl.
  - destruct rest as [|net2 rest]; simpl.
    { repeat split; intros; try done; auto; simpl in *; lia. }
    destruct (getProfileByDid_total net2 did) as [profileData ->]. simpl.
    repeat split; intros; try done; auto.
  - repeat split; intros; try done; auto.
Qed.

Lemma searchForProfile_busy_while_pending_witness :
  (3 <= String.length "alice")%nat
  /\ ended (exec (js := plain_builtins) (searchForProfile "alice") [net_did]
              (ui mounted)) = Pending
  /\ isSearching (final (exec (js := plain_builtins) (searchForProfile "alice")
                           [net_did] (ui mounted))) = true.
Proof.
  assert (Hlen : (3 <= String.length "alice")%nat) by (simpl; lia).
  split; [exact Hlen|]. split; [reflexivity|].
  apply (searchForProfile_busy_while_pending (js := plain_builtins)
           "alice" [net_did] (ui mounted) Hlen).
  reflexivity.
Defined.

(** X7: however its calls settle, a resolution leaves the query, the
    selected profile and the blocklist as they were and makes at most two
    calls, the first of them [getDidFromHandle] with the query; a
    selection leaves the busy flag as it was and makes at most one
    call. *)
Theorem handlers_leave_the_rest {js : Builtins}
    (text : string) (profile : value) (nets : list network) (s : state) :
  (let t := exec (searchForProfile text) nets s in
   query (final t) = query s
   /\ selectedProfile (final t) = selectedProfile s
   /\ blocklist (final t) = blocklist s
   /\ (List.length (calls t) <= 2)%nat
   /\ (calls t = [] \/ exists more, calls t = GetDidFromHandle text :: more))
  /\ (let t := exec (handleSelect profile) nets s in
      isSearching (final t) = isSearching s
      /\ selectedProfile (final t) = profile
      /\ (List.length (calls t) <= 1)%nat).
Proof.
  cbv zeta. split.
  - unfold searchForProfile.
    destruct (Z.of_nat (String.length text) <? 3); simpl; [by auto 10|].
    destruct nets as [|net1 rest]; simpl; [by eauto 10|].
    destruct (getDidFromHandle_total net1 text) as [did ->].
    destruct (truthy did); simpl; [|by eauto 10].
    destruct rest as [|net2 rest]; simpl; [by eauto 10|].
    destruct (getProfileByDid_total net2 did) as [profileData ->]. simpl.
    by eauto 10.
  - unfold handleSelect. destruct (get profile "handle") as [handle|]; simpl;
      [|by auto].
    destruct nets as [|net rest]; simpl; [by auto|].
    destruct (getBlocklist_total net handle) as [bl ->]. simpl. by auto.
Qed.



(** ** The keys of the rows *)

Lemma has_dash_app a b : has_dash (a ++ b) = has_dash a || has_dash b.
Proof. induction a as [|c a IH]; simpl; [done|]. by rewrite IH, orb_assoc. Qed.

Lemma after_last_dash_app a d :
  has_dash d = false -> after_last_dash (a ++ "-" ++ d) = d.
Proof.
  intros Hd. induction a as [|c a IH]; simpl.
  - by rewrite Hd.
  - rewrite has_dash_app. simpl. by rewrite orb_true_r.
Qed.

Lemma no_dash_uint d : has_dash (NilEmpty.string_of_uint d) = false.
Proof. induction d; simpl; done. Qed.

Lemma no_dash_decimal n : has_dash (decimal n) = false.
Proof.
  unfold decimal. destruct (Z.of_nat n) eqn:E; simpl; try done; [|lia].
  unfold NilZero.string_of_uint.
  destruct (Pos.to_uint p); try apply no_dash_uint. done.
Qed.

Lemma to_int_nonnil z :
  Z.to_int z <> Decimal.Pos Decimal.Nil /\ Z.to_int z <> Decimal.Neg Decimal.Nil.
Proof.
  rewrite <- (DecimalZ.of_to z) at 1 2. rewrite DecimalZ.to_of.
  destruct (Z.to_int z) as [d|d]; simpl.
  - split; [|done]. intros [= H]. by apply unorm_nonnil in H.
  - destruct (Decimal.nzhead d) eqn:E; split; try done.
Qed.

Lemma decimal_inj n m : decimal n = decimal m -> n = m.
Proof.
  unfold decimal. intros H.
  assert (Some (Z.to_int (Z.of_nat n)) = Some (Z.to_int (Z.of_nat m))) as [= H'].
  { destruct (to_int_nonnil (Z.of_nat n)), (to_int_nonnil (Z.of_nat m)).
    rewrite <- (NilZero.isi (Z.to_int (Z.of_nat n))),
            <- (NilZero.isi (Z.to_int (Z.of_nat m))) by done.
    by rewrite H. }
  apply (f_equal Z.of_int) in H'. rewrite !DecimalZ.of_to in H'. lia.
Qed.

Lemma row_keys_from_suffixes {js : Builtins} start blocks keys :
  (forall i, ToString_other (VNum (Z.of_nat i)) = decimal i) ->
  row_keys_from start blocks = Normal keys ->
  after_last_dash <$> keys = decimal <$> seq start (List.length blocks).
Proof.
  intros Hnum. revert start keys.
  induction blocks as [|block rest IH]; intros start keys; simpl.
  - by intros [= <-].
  - unfold row_key.
    destruct (get block "handle") as [handle|]; simpl; [|done].
    destruct (row_keys_from (S start) rest) as [more|] eqn:Hrest; simpl; [|done].
    intros [= <-]. rewrite fmap_cons. f_equal.
    + rewrite Hnum. apply after_last_dash_app, no_dash_decimal.
    + by apply IH.
Qed.

(** X9: an index printing in decimal, as the language has it, the keys
    given to the rows of the panel, one per entry of the blocklist, are
    pairwise distinct, also when two entries have the same handle. *)
Theorem row_keys_distinct {js : Builtins} (blocklist : value) (keys : list string) :
  (forall i, ToString_other (VNum (Z.of_nat i)) = decimal i) ->
  row_keys blocklist = Normal keys ->
  NoDup keys
  /\ exists items, blocklist = VArr items /\ List.length keys = List.length items.
Proof.
  intros Hnum. unfold row_keys.
  destruct blocklist as [| | | | |items|]; simpl; try done.
  intros Hkeys.
  pose proof (row_keys_from_suffixes 0 items keys Hnum Hkeys) as Hsuf.
  split.
  - apply (NoDup_fmap_1 after_last_dash). rewrite Hsuf.
    apply NoDup_fmap_2; [|apply NoDup_seq].
    intros n m. apply decimal_inj.
  - exists items. split; [done|].
    apply (f_equal List.length) in Hsuf.
    by rewrite !length_fmap, length_seq in Hsuf.
Qed.

Lemma row_keys_distinct_witness :
  (forall i, ToString_other (Builtins := plain_builtins) (VNum (Z.of_nat i))
             = decimal i)
  /\ row_keys (js := plain_builtins) (VArr [bob_block; bob_block])
     = Normal ["bob-0"; "bob-1"]
  /\ NoDup ["bob-0"; "bob-1"].
Proof.
  assert (Hnum : forall i,
            ToString_other (Builtins := plain_builtins) (VNum (Z.of_nat i))
            = decimal i) by reflexivity.
  split; [exact Hnum|]. split; [reflexivity|].
  apply (row_keys_distinct (js := plain_builtins) (VArr [bob_block; bob_block])
           ["bob-0"; "bob-1"] Hnum).
  reflexivity.
Defined.

(** ** Sequences of events *)

Lemma steps_cons {js : Builtins} e es a : steps (e :: es) a = steps es (step e a).
Proof. reflexivity. Qed.

Lemma last_nonempty {A} (x : A) (l : list A) d d' :
  List.last (x :: l) d = List.last (x :: l) d'.
Proof.
  revert x. induction l as [|y l IH]; intros x; [done|].
  change (List.last (y :: l) d = List.last (y :: l) d'). apply IH.
Qed.

(** X10: edits of the input call nothing: after any number of edits in a
    row the call log, the suspended handlers, the candidate, the selected
    profile, the blocklist and the busy flag are as before, the query is
    the last text typed, and a timer that was running still is. *)
Theorem typing_calls_nothing {js : Builtins} (texts : list string) (a : app) :
  let a' := steps (map Change texts) a in
  called a' = called a
  /\ suspended a' = suspended a
  /\ searchProfile (ui a') = searchProfile (ui a)
  /\ selectedProfile (ui a') = selectedProfile (ui a)
  /\ blocklist (ui a') = blocklist (ui a)
  /\ isSearching (ui a') = isSearching (ui a)
  /\ query (ui a') = List.last texts (query (ui a))
  /\ (timer a = true -> timer a' = true).
Proof.
  cbv zeta. revert a. induction texts as [|text texts IH]; intros a.
  - by repeat split.
  - simpl map. rewrite steps_cons.
    destruct (IH (step (Change text) a))
      as (Hc & Hs & Hsp & Hsel & Hbl & Hbusy & Hq & Ht).
    rewrite Hc, Hs, Hsp, Hsel, Hbl, Hbusy, Hq.
    unfold step at 1 2 3 4 5 6 7. unfold dispatch.
    rewrite called_useDebounce, suspended_useDebounce, !ui_useDebounce.
    simpl. repeat split.
    + destruct texts as [|t texts]; [done|]. apply last_nonempty.
    + intros Hta. apply Ht. unfold step, dispatch, useDebounce. simpl.
      by destruct (String.eqb _ _).
Qed.

Lemma timer_run {js : Builtins} o p a : timer (run o p a) = timer a.
Proof.
  revert a. induction p as [| |u k IH|]; intros a; simpl; try done.
  by rewrite IH.
Qed.

Lemma query_run_searchForProfile {js : Builtins} o text a :
  query (ui (run o (searchForProfile text) a)) = query (ui a).
Proof.
  unfold searchForProfile.
  by destruct (Z.of_nat (String.length text) <? 3).
Qed.

Lemma useDebounce_same_query {js : Builtins} a a' :
  query (ui a') = query (ui a) -> useDebounce a a' = a'.
Proof. unfold useDebounce. intros ->. by rewrite String.eqb_refl. Qed.

(** X14: when the quiet period ends the timer is stopped and the query is
    as it was, so without an edit in between a second end of the quiet
    period does nothing: one resolution at most is begun per quiet
    period. *)
Theorem debounce_fires_once {js : Builtins} (a : app) :
  let a1 := step DebounceElapsed a in
  timer a1 = false
  /\ query (ui a1) = query (ui a)
  /\ step DebounceElapsed a1 = a1.
Proof.
  cbv zeta.
  assert (H1 : timer (step DebounceElapsed a) = false
               /\ query (ui (step DebounceElapsed a)) = query (ui a)).
  { unfold step, dispatch. destruct (timer a) eqn:Ht.
    - cbv zeta. cbn [start]. rewrite useDebounce_same_query
        by (by rewrite query_run_searchForProfile).
      split; [by rewrite timer_run|by rewrite query_run_searchForProfile].
    - rewrite useDebounce_same_query by done. done. }
  destruct H1 as [Ht Hq]. split; [done|]. split; [done|].
  unfold step at 1. unfold dispatch. rewrite Ht.
  by apply useDebounce_same_query.
Qed.

Lemma settle_selection {js : Builtins} a i net f profile :
  reachable a ->
  suspended a !! i = Some f ->
  origin f = HandleSelect profile ->
  exists blocklistData t,
    step (Settle i net) a
    = {| ui := setSearchProfile VNull
                 (setQuery "" (setBlocklist blocklistData (ui a)));
         timer := t;
         suspended := delete i (suspended a);
         called := called a |}.
Proof.
  intros Hreach Hf Ho.
  pose proof (reachable_frames_ok a Hreach) as Hall.
  eapply Forall_lookup_1 in Hall; [|exact Hf].
  destruct (frame_cases f Hall)
    as [(query & Ho' & _)|(profile' & Ho' & Hframe)]; [congruence|].
  unfold step, dispatch. rewrite Hf.
  destruct (perform_total net (waiting_on f)) as [v ->].
  destruct f as [o c k]. simpl in Hframe |- *.
  destruct Hframe as [handle Hget]. simpl.
  unfold useDebounce. destruct (String.eqb _ _); by eexists _, _.
Qed.

(** X8: when the blocklist fetch of a selection settles, the query is
    emptied and the candidate set to [null]; when the quiet period then
    ends, no call is made and no handler is suspended: the state stays as
    it is with the timer stopped.  A selection never starts a lookup. *)
Theorem selection_starts_no_lookup {js : Builtins}
    (a : app) (i : nat) (net : network) (f : frame) (profile : value) :
  reachable a ->
  suspended a !! i = Some f ->
  origin f = HandleSelect profile ->
  let a1 := step (Settle i net) a in
  let a2 := step DebounceElapsed a1 in
  query (ui a1) = ""
  /\ searchProfile (ui a1) = VNull
  /\ called a1 = called a
  /\ ui a2 = ui a1
  /\ called a2 = called a1
  /\ suspended a2 = suspended a1
  /\ timer a2 = false.
Proof.
  intros Hreach Hf Ho. cbv zeta.
  destruct (settle_selection a i net f profile Hreach Hf Ho) as (bl & t & ->).
  unfold step, dispatch. simpl. destruct t; by repeat split.
Qed.

Lemma selection_starts_no_lookup_witness :
  reachable (js := plain_builtins) selecting_alice
  /\ (exists f, suspended selecting_alice !! 0%nat = Some f
                /\ origin f = HandleSelect alice)
  /\ query (ui selected_alice) = ""
  /\ called (step (js := plain_builtins) DebounceElapsed selected_alice)
     = called selected_alice.
Proof.
  split; [exact reachable_selecting_alice|].
  split; [eexists; split; reflexivity|].
  pose proof (selection_starts_no_lookup (js := plain_builtins) selecting_alice
                0 net_blocklist _ alice reachable_selecting_alice
                eq_refl eq_refl) as H.
  cbv zeta in H. split; [apply H|apply H].
Defined.

Lemma settle_alone {js : Builtins} o c k net v a :
  suspended a = [] ->
  perform net c = Normal v ->
  exists b,
    step (Settle 0 net)
      (suspend {| origin := o; waiting_on := c; resume := k |} a)
    = run o (k v) (with_timer b {| ui := ui a; timer := timer a; suspended := [];
                                   called := (called a ++ [c])%list |}).
Proof.
  intros Hs Hv. unfold step, dispatch. simpl suspended. rewrite Hs.
  change (([] ++ [{| origin := o; waiting_on := c; resume := k |}])%list !! 0%nat)
    with (Some {| origin := o; waiting_on := c; resume := k |}).
  lazy beta iota. cbn [waiting_on origin resume]. rewrite Hv.
  unfold resumed, suspend. cbn [ui timer suspended called]. rewrite Hs.
  change (delete 0%nat ([] ++ [{| origin := o; waiting_on := c; resume := k |}])%list)
    with (@nil frame).
  unfold useDebounce. destruct (String.eqb _ _).
  - by exists (timer a).
  - exists true. by rewrite run_with_timer.
Qed.

Lemma settled_in_app {js : Builtins} o p nets a :
  suspended a = [] ->
  ended (exec p nets (ui a)) <> Pending ->
  suspended (fold_left (fun a net => step (Settle 0 net) a) nets (run o p a)) = [].
Proof.
  revert nets a.
  induction p as [|e|u k IH|c k IH]; intros nets a Hs Hend.
  - simpl run. clear Hend. induction nets as [|net nets IHn]; simpl; [done|].
    by rewrite settle_nothing.
  - simpl run. clear Hend. induction nets as [|net nets IHn]; simpl; [done|].
    by rewrite settle_nothing.
  - simpl. by apply (IH nets (with_ui (apply_setter u) a)).
  - destruct nets as [|net rest]; [done|].
    cbn [fold_left run]. cbn [exec] in Hend.
    destruct (perform_total net c) as [v Hv]. rewrite Hv in Hend.
    destruct (settle_alone o c k net v a Hs Hv) as [b ->].
    by apply IH.
Qed.

Lemma run_in_app {js : Builtins} o p nets a :
  suspended a = [] ->
  let a' := fold_left (fun a net => step (Settle 0 net) a) nets (run o p a) in
  ui a' = final (exec p nets (ui a))
  /\ called a' = (called a ++ calls (exec p nets (ui a)))%list
  /\ (ended (exec p nets (ui a)) <> Pending -> suspended a' = []).
Proof.
  intros Hs. cbv zeta.
  destruct (exec_in_app o p nets a Hs) as [Hui Hcalled].
  split; [done|]. split; [done|]. by apply settled_in_app.
Qed.

Lemma query_run_handleSelect {js : Builtins} o profile a :
  query (ui (run o (handleSelect profile) a)) = query (ui a).
Proof. unfold handleSelect. by destruct (get profile "handle"). Qed.

(** X15: a lookup followed by a selection, nothing else happening in
    between: the user types a query of length 3 or more, the quiet period
    ends, the identifier and then a truthy profile arrive, the user
    clicks the row and the blocklist arrives.  The component has then
    made exactly the three calls, in order, no handler is left suspended,
    and the state holds the profile as selected, the blocklist returned
    for its handle, an empty query, no candidate and a cleared busy
    flag. *)
Theorem lookup_then_select {js : Builtins}
    (text : string) (net1 net2 net3 : network)
    (did profile handle blocklistData : value) :
  (3 <= String.length text)%nat ->
  API.getDidFromHandle net1 text = Normal did ->
  truthy did = true ->
  API.getProfileByDid net2 did = Normal profile ->
  truthy profile = true ->
  get profile "handle" = Normal handle ->
  API.getBlocklist net3 handle = Normal blocklistData ->
  let a :=
    steps [Change text; DebounceElapsed; Settle 0 net1; Settle 0 net2;
           ClickRow; Settle 0 net3] mounted in
  ui a = {| query := ""; searchProfile := VNull; selectedProfile := profile;
            blocklist := blocklistData; isSearching := false |}
  /\ called a = [GetDidFromHandle text; GetProfileByDid did; GetBlocklist handle]
  /\ suspended a = [].
Proof.
  intros Hlen Hdid Htd Hprofile Htp Hget Hbl. cbv zeta.
  unfold steps. cbn [fold_left].
  set (a0 := step (Change text) mounted).
  assert (H0 : ui a0 = setQuery text (ui mounted) /\ suspended a0 = []
               /\ called a0 = [] /\ timer a0 = true).
  { unfold a0, step, dispatch. simpl. unfold useDebounce.
    by destruct (String.eqb _ _). }
  destruct H0 as (Hui0 & Hs0 & Hc0 & Ht0).
  assert (H1 : step DebounceElapsed a0
               = run (SearchForProfile text) (searchForProfile text)
                   (with_timer false a0)).
  { unfold step, dispatch. rewrite Ht0, Hui0. cbv zeta. cbn [start query setQuery].
    apply useDebounce_same_query.
    rewrite query_run_searchForProfile. simpl. by rewrite Hui0. }
  rewrite H1. clear H1.
  destruct (run_in_app (SearchForProfile text)
              (searchForProfile text) [net1; net2] (with_timer false a0) Hs0)
    as (Hui3 & Hc3 & Hs3).
  cbn [fold_left] in Hui3, Hc3, Hs3.
  set (a3 := step (Settle 0 net2) (step (Settle 0 net1) _)) in *.
  rewrite (exec_searchForProfile_found text net1 net2 [] _ did profile
             Hlen Hdid Htd Hprofile) in Hui3, Hc3, Hs3.
  simpl in Hui3, Hc3, Hs3. rewrite Hc0 in Hc3. rewrite Hui0 in Hui3.
  specialize (Hs3 ltac:(discriminate)).
  assert (H4 : step ClickRow a3
               = run (HandleSelect profile) (handleSelect profile) a3).
  { unfold step, dispatch. rewrite Hui3. cbn [searchProfile setIsSearching
      setSearchProfile]. rewrite Htp. cbv zeta. cbn [start].
    apply useDebounce_same_query. apply query_run_handleSelect. }
  rewrite H4. clear H4.
  destruct (run_in_app (HandleSelect profile)
              (handleSelect profile) [net3] a3 Hs3) as (Hui5 & Hc5 & Hs5).
  change (fold_left (fun a net => step (Settle 0 net) a) [net3]
            (run (HandleSelect profile) (handleSelect profile) a3))
    with (step (Settle 0 net3)
            (run (HandleSelect profile) (handleSelect profile) a3))
    in Hui5, Hc5, Hs5.
  rewrite (exec_handleSelect profile net3 [] _ handle blocklistData Hget Hbl)
    in Hui5, Hc5, Hs5.
  cbn [final calls ended] in Hui5, Hc5, Hs5.
  rewrite Hui3 in Hui5. rewrite Hc3 in Hc5.
  split; [by rewrite Hui5|]. split; [by rewrite Hc5|].
  apply Hs5. discriminate.
Qed.

Lemma lookup_then_select_witness :
  (3 <= String.length "alice")%nat
  /\ truthy (VStr "did:plc:alice") = true
  /\ truthy alice = true
  /\ ui (steps (js := plain_builtins)
           [Change "alice"; DebounceElapsed; Settle 0 net_did;
            Settle 0 net_profile; ClickRow; Settle 0 net_blocklist] mounted)
     = {| query := ""; searchProfile := VNull; selectedProfile := alice;
          blocklist := VArr [bob_block]; isSearching := false |}.
Proof.
  assert (Hlen : (3 <= String.length "alice")%nat) by (simpl; lia).
  split; [exact Hlen|]. split; [reflexivity|]. split; [reflexivity|].
  apply (lookup_then_select (js := plain_builtins) "alice"
           net_did net_profile net_blocklist
           (VStr "did:plc:alice") alice (VStr "alice") (VArr [bob_block])
           Hlen eq_refl eq_refl eq_refl eq_refl eq_refl eq_refl).
Defined.
